(** * AFQ.mask: a shallow embedding of [src/AFQ/mask.py]

    The module builds spatial masks from image volumes.  The embedding keeps
    the structure of the Python source:

    - numpy arrays are a shape together with a row-major, dtype-homogeneous
      buffer; float64 elements are IEEE binary64 ([PrimFloat]);
    - Python exceptions are an error type threaded through a small monad;
    - attribute mutation ([self.mask = ...], [self.fnames[...] = ...]) is
      explicit state passing: a mutating method returns the updated object;
    - method calls go through the method resolution order computed from the
      class declarations (C3 linearisation), so a method that no class of
      the receiver defines is an [AttributeError];
    - calls to collaborators outside the module ([reg.resample], [nib.load],
      [bids_layout.get], [afq._get_data_gtab], the scalar functions) are
      oracles, and every such call is recorded in a trace. *)

From Stdlib Require Import PrimFloat SpecFloat FloatOps ZArith.
From stdpp Require Import base gmap strings pretty list.

Set Warnings "-inexact-float,-register-all".
Local Open Scope nat_scope.

(** ** Python exceptions and fallible computations *)

Inductive exn :=
| TypeError (msg : string)
| RuntimeError (msg : string)
| AttributeError (type_name attr : string)
| KeyError (key : string)
| IndexError (msg : string)
| ValueError (msg : string).

Inductive result (A : Type) :=
| Return (a : A)
| Raise (e : exn).
Arguments Return {A} a.
Arguments Raise {A} e.

#[global] Instance result_ret : MRet result := @Return.
#[global] Instance result_bind : MBind result :=
  fun A B f m => match m with Return a => f a | Raise e => Raise e end.

#[global] Instance result_fmap : FMap result :=
  fun A B f m => match m with Return a => Return (f a) | Raise e => Raise e end.

(** The spec's error taxonomy, read on the exceptions the module raises:
    a configuration error is the [TypeError] of [combine_illdefined] and
    [check_mask_methods] or the [RuntimeError] of an unsupported scalar; a
    lookup error is Python's [LookupError], the base of [KeyError] and
    [IndexError]. *)
Definition is_configuration_error (e : exn) : bool :=
  match e with TypeError _ | RuntimeError _ => true | _ => false end.

Definition is_lookup_error (e : exn) : bool :=
  match e with KeyError _ | IndexError _ => true | _ => false end.

Definition is_key_error (e : exn) : bool :=
  match e with KeyError _ => true | _ => false end.

(** ** numpy arrays *)

Inductive dtype := np_bool | np_int64 | np_float64.

Inductive buffer :=
| BoolBuf (l : list bool)
| IntBuf (l : list Z)
| FloatBuf (l : list float).

Record ndarray := NDArray { shape : list nat; buf : buffer }.

Definition dtype_of (a : ndarray) : dtype :=
  match buf a with
  | BoolBuf _ => np_bool
  | IntBuf _ => np_int64
  | FloatBuf _ => np_float64
  end.

(** One element of an array, tagged with the dtype it was stored in. *)
Inductive scalar :=
| SBool (b : bool)
| SInt (n : Z)
| SFloat (x : float).

Definition elements (b : buffer) : list scalar :=
  match b with
  | BoolBuf l => SBool <$> l
  | IntBuf l => SInt <$> l
  | FloatBuf l => SFloat <$> l
  end.

Definition buf_len (b : buffer) : nat := length (elements b).

(** Number of elements of a shape: the product of its axes. *)
Definition numel (s : list nat) : nat := foldr Nat.mul 1 s.

(** The range of an int64: -2^63 <= z < 2^63. *)
Definition is_int64 (z : Z) : bool :=
  (- 2 ^ 63 <=? z)%Z && (z <? 2 ^ 63)%Z.

Definition int64_elements (b : buffer) : bool :=
  match b with
  | IntBuf l => forallb is_int64 l
  | _ => true
  end.

(** A numpy array holds exactly as many elements as its shape says, and the
    elements of an int64 array are in the range of an int64. *)
Definition well_formed (a : ndarray) : Prop :=
  buf_len (buf a) = numel (shape a) ∧ int64_elements (buf a) = true.

(** Conversion of an integer to float64: the nearest binary64, ties to
    even (the integer itself up to 2^53 in magnitude).  This is the
    conversion C makes of an int64, -2^63 included, and the one numpy makes
    of a Python int in the range of an int64 that meets a float64 array. *)
Definition float_of_int (z : Z) : float :=
  SF2Prim (binary_normalize prec emax z 0 false).

(** An element as a float64, as numpy promotes an array that meets a Python
    float (and as [astype(float)] converts it). *)
Definition to_float (v : scalar) : float :=
  match v with
  | SBool b => if b then 1%float else 0%float
  | SInt n => float_of_int n
  | SFloat x => x
  end.

(** Truth value of an element: nonzero is true (so is NaN). *)
Definition truthy (v : scalar) : bool :=
  match v with
  | SBool b => b
  | SInt n => negb (n =? 0)%Z
  | SFloat x => negb (PrimFloat.eqb x 0)
  end.

(** [v < x] and [v > x] against a Python float; [v == n] and [v != n]
    against a Python int in the range of an int64 (a larger Python int is
    not converted this way by every numpy). *)
Definition lt_float (v : scalar) (x : float) : bool := PrimFloat.ltb (to_float v) x.
Definition gt_float (v : scalar) (x : float) : bool := PrimFloat.ltb x (to_float v).
Definition eq_int (v : scalar) (n : Z) : bool :=
  match v with
  | SBool b => (Z.b2z b =? n)%Z
  | SInt m => (m =? n)%Z
  | SFloat x => PrimFloat.eqb x (float_of_int n)
  end.
Definition ne_int (v : scalar) (n : Z) : bool := negb (eq_int v n).

Definition as_floats (b : buffer) : list float := to_float <$> elements b.
Definition truth (b : buffer) : list bool := truthy <$> elements b.

(** [np.zeros(shape, dtype=bool)], [np.ones(shape, dtype=bool)] and
    [np.ones(shape)] (float64 by default). *)
Definition np_zeros_bool (s : list nat) : ndarray :=
  NDArray s (BoolBuf (replicate (numel s) false)).
Definition np_ones_bool (s : list nat) : ndarray :=
  NDArray s (BoolBuf (replicate (numel s) true)).
Definition np_ones (s : list nat) : ndarray :=
  NDArray s (FloatBuf (replicate (numel s) 1%float)).

(** Elementwise comparison with a Python scalar: a bool array of the same
    shape.  [a < x], [a > x], [a == n], [a != n]. *)
Definition np_compare {X} (test : scalar → X → bool) (a : ndarray) (x : X) : ndarray :=
  NDArray (shape a) (BoolBuf ((fun v => test v x) <$> elements (buf a))).
Definition np_lt := np_compare lt_float.
Definition np_gt := np_compare gt_float.
Definition np_eq := np_compare eq_int.
Definition np_ne := np_compare ne_int.

(** *** Broadcasting *)

(** Shapes are aligned on their last axis; two axes agree when they are
    equal or one of them is 1.  [broadcast_rev] works on reversed shapes. *)
Fixpoint broadcast_rev (s t : list nat) : option (list nat) :=
  match s, t with
  | [], _ => Some t
  | _, [] => Some s
  | d :: s', e :: t' =>
      r ← broadcast_rev s' t';
      if d =? e then Some (d :: r)
      else if d =? 1 then Some (e :: r)
      else if e =? 1 then Some (d :: r)
      else None
  end.

Definition broadcast_shapes (s t : list nat) : option (list nat) :=
  reverse <$> broadcast_rev (reverse s) (reverse t).

(** [chunks k n l]: the first [n] consecutive blocks of [k] elements. *)
Fixpoint chunks {A} (k n : nat) (l : list A) : list (list A) :=
  match n with
  | O => []
  | S n' => take k l :: chunks k n' (drop k l)
  end.

(** Row-major data of shape [s] stretched to shape [t] of the same rank:
    an axis of length 1 is repeated, an equal axis is kept. *)
Fixpoint stretch {A} (s t : list nat) (l : list A) : list A :=
  match s, t with
  | d :: s', e :: t' =>
      if d =? e then concat (stretch s' t' <$> chunks (numel s') d l)
      else concat (replicate e (stretch s' t' l))
  | _, _ => l
  end.

(** Data of shape [s] broadcast to the (longer or equal) shape [t]: missing
    leading axes count as 1. *)
Definition broadcast_to {A} (s t : list nat) (l : list A) : list A :=
  stretch (replicate (length t - length s) 1 ++ s) t l.

(** [np.logical_or] and [np.logical_and]: elementwise on truth values after
    broadcasting; shapes that do not broadcast are a [ValueError]. *)
Definition np_logical (op : bool → bool → bool) (a b : ndarray) : result ndarray :=
  match broadcast_shapes (shape a) (shape b) with
  | None => Raise (ValueError "operands could not be broadcast together")
  | Some s =>
      Return (NDArray s (BoolBuf (zip_with op
                (broadcast_to (shape a) s (truth (buf a)))
                (broadcast_to (shape b) s (truth (buf b))))))
  end.
Definition np_logical_or := np_logical orb.
Definition np_logical_and := np_logical andb.

(** [a[..., 0]]: the first entry along the last axis.  A 0-d array has no
    axis to index and an empty last axis has no entry 0: [IndexError]. *)
Definition firsts {A} (n : nat) (l : list A) : list A :=
  chunks n (length l / n) l ≫= take 1.

Definition map_buf (f : ∀ A, list A → list A) (b : buffer) : buffer :=
  match b with
  | BoolBuf l => BoolBuf (f _ l)
  | IntBuf l => IntBuf (f _ l)
  | FloatBuf l => FloatBuf (f _ l)
  end.

Definition index_last_0 (a : ndarray) : result ndarray :=
  match reverse (shape a) with
  | [] =>
      Raise (IndexError
        "too many indices for array: array is 0-dimensional, but 1 were indexed")
  | n :: rs =>
      if n =? 0 then
        Raise (IndexError ("index 0 is out of bounds for axis " +:+ pretty (length rs)
                             +:+ " with size 0"))
      else Return (NDArray (reverse rs) (map_buf (fun A => firsts n) (buf a)))
  end.

(** ** _MaskCombiner *)

Module _MaskCombiner.

Record t := Build { combine : string; mask : ndarray }.

(** [self.combine_illdefined()], which reads [self.combine] only. *)
Definition combine_illdefined {A} (self_combine : string) : result A :=
  Raise (TypeError ("combine should be either 'or' or 'and', you set combine to "
                      +:+ self_combine)).

(** [_MaskCombiner(shape, combine)]; when [__init__] raises no object is
    built. *)
Definition __init__ (shape : list nat) (combine : string) : result t :=
  if String.eqb combine "or" then Return (Build combine (np_zeros_bool shape))
  else if String.eqb combine "and" then Return (Build combine (np_ones_bool shape))
  else combine_illdefined combine.

(** [self.combine_mask(other_mask)]: the object after the call, and whether
    the call returned or raised.  Only a completed numpy call is assigned
    to [self.mask]. *)
Definition combine_mask (self : t) (other_mask : ndarray) : t * result () :=
  if String.eqb (combine self) "or" then
    match np_logical_or (mask self) other_mask with
    | Return m => (Build (combine self) m, Return ())
    | Raise e => (self, Raise e)
    end
  else if String.eqb (combine self) "and" then
    match np_logical_and (mask self) other_mask with
    | Return m => (Build (combine self) m, Return ())
    | Raise e => (self, Raise e)
    end
  else (self, combine_illdefined (combine self)).

(** [self.combine = tag]: the tag is a plain mutable attribute. *)
Definition set_combine (tag : string) (self : t) : t := Build tag (mask self).

(** A run of [combine_mask] calls on one combiner, stopping at the first
    that raises (the body of the [for label in ...] loops). *)
Fixpoint combine_masks (self : t) (others : list ndarray) : t * result () :=
  match others with
  | [] => (self, Return ())
  | o :: rest =>
      match combine_mask self o with
      | (self', Return _) => combine_masks self' rest
      | (self', Raise e) => (self', Raise e)
      end
  end.

End _MaskCombiner.

(** ** Classes and method resolution *)

Inductive class :=
| object
| _MaskCombiner_class
| MaskFile
| FullMask
| LabelledMaskFile
| ThresholdedMaskFile
| ScalarMask
| ThresholdedScalarMask
| CombinedMask.

#[global] Instance class_eq_dec : EqDecision class.
Proof. solve_decision. Defined.

Definition class_name (c : class) : string :=
  match c with
  | object => "object"
  | _MaskCombiner_class => "_MaskCombiner"
  | MaskFile => "MaskFile"
  | FullMask => "FullMask"
  | LabelledMaskFile => "LabelledMaskFile"
  | ThresholdedMaskFile => "ThresholdedMaskFile"
  | ScalarMask => "ScalarMask"
  | ThresholdedScalarMask => "ThresholdedScalarMask"
  | CombinedMask => "CombinedMask"
  end.

(** The base classes of each [class] statement, in the order written. *)
Definition bases (c : class) : list class :=
  match c with
  | object => []
  | _MaskCombiner_class | MaskFile | FullMask | CombinedMask => [object]
  | LabelledMaskFile | ThresholdedMaskFile | ScalarMask => [MaskFile]
  | ThresholdedScalarMask => [ThresholdedMaskFile; ScalarMask]
  end.

(** The methods each class body defines itself. *)
Definition class_dict (c : class) : list string :=
  match c with
  | object => ["__init__"]
  | _MaskCombiner_class => ["__init__"; "combine_mask"; "combine_illdefined"]
  | MaskFile =>
      ["__init__"; "find_path"; "get_path_data_affine"; "apply_conditions"; "get_mask"]
  | FullMask => ["find_path"; "get_mask"]
  | LabelledMaskFile => ["__init__"; "apply_conditions"]
  | ThresholdedMaskFile => ["__init__"; "apply_conditions"]
  | ScalarMask => ["__init__"; "find_path"; "get_path_data_affine"]
  | ThresholdedScalarMask => ["__init__"]
  | CombinedMask => ["__init__"; "find_path"; "get_mask"]
  end.

(** Python's C3 linearisation.  A class is a candidate when it is in the
    tail of no sequence; the first candidate head is taken and removed. *)
Definition c3_candidate (seqs : list (list class)) (c : class) : bool :=
  forallb (fun s => bool_decide (c ∉ tail s)) seqs.

Definition drop_head (c : class) (s : list class) : list class :=
  match s with
  | h :: tl => if decide (h = c) then tl else s
  | [] => []
  end.

Fixpoint c3_merge (fuel : nat) (seqs : list (list class)) : option (list class) :=
  match fuel with
  | O => None
  | S fuel' =>
      match filter (fun s => s ≠ []) seqs with
      | [] => Some []
      | live =>
          c ← List.find (c3_candidate live) (live ≫= take 1);
          rest ← c3_merge fuel' (drop_head c <$> live);
          Some (c :: rest)
      end
  end.

Fixpoint linearize (depth : nat) (c : class) : option (list class) :=
  match depth with
  | O => None
  | S depth' =>
      ls ← mapM (linearize depth') (bases c);
      rest ← c3_merge (S (length (concat ls) + length (bases c))) (ls ++ [bases c]);
      Some (c :: rest)
  end.

(** [C.__mro__]; the hierarchy is four classes deep. *)
Definition mro (c : class) : list class := default [] (linearize 4 c).

(** The class whose body supplies method [name] for an instance of [c]. *)
Definition resolve (c : class) (name : string) : option class :=
  List.find (fun k => bool_decide (name ∈ class_dict k)) (mro c).

(** ** Values the module passes around *)

(** Provenance metadata: Python dicts keep insertion order. *)
Inductive pyval :=
| PNone
| PStr (s : string)
| PInt (n : Z)
| PFloat (x : float)
| PList (l : list pyval)
| PDict (d : list (string * pyval)).

Definition meta := list (string * pyval).

Definition of_optional {A} (f : A → pyval) (o : option A) : pyval :=
  match o with Some a => f a | None => PNone end.

(** A 4x4 affine, row by row; the module only hands it on. *)
Definition Affine := list (list float).

(** A loaded image: [get_fdata()] is always a float64 array. *)
Record Image := { img_shape : list nat; img_fdata : list float; affine : Affine }.
Definition get_fdata (img : Image) : ndarray :=
  NDArray (img_shape img) (FloatBuf (img_fdata img)).

Record GradientTable := { bvals : list float; bvecs : list (list float) }.

(** A processing row: [row['ses']] and [row['subject']]. *)
Record Row := { ses : string; subject : string }.

(** The diffusion context [afq]: the row's diffusion data, and the ordered
    dict from scalar name to the function giving that scalar's file. *)
Record AFQ := {
  _get_data_gtab : Row → ndarray * GradientTable * Image;
  _scalar_dict : list (string * (Row → string))
}.

(** [bids_layout.get(subject=, session=, extension=, suffix=, return_type=,
    scope=)]: the list of matching file names. *)
Record BIDSLayout := {
  layout_get : string → string → string → string → string → option string → list string
}.

(** Collaborators imported by the module, and the numpy kernels whose
    numerics it relies on but does not define. *)
Class Collaborators := {
  (** [reg.resample(moving, static, moving_affine, static_affine)]:
      continuous-valued data on the static grid *)
  reg_resample : ndarray → ndarray → Affine → Affine → list nat * list float;
  (** [nib.load(fname)] *)
  nib_load : string → Image;
  (** [np.round] on one float64 *)
  np_round1 : float → float;
  (** the C cast of one float64 to int64 made by [astype] *)
  int_of_float : float → Z
}.

(** ** Effects: a trace of collaborator calls, and exceptions *)

Inductive event :=
| get_data_gtab_called (row : Row)
| scalar_called (name : string) (row : Row)
| nib_load_called (fname : string)
| resample_mask_called
| reg_resample_called
| bids_get_called (subject session suffix : string) (scope : option string).

Record M (A : Type) := Run { trace : list event; outcome : result A }.
Arguments Run {A} trace outcome.
Arguments trace {A} m.
Arguments outcome {A} m.

#[global] Instance M_ret : MRet M := fun A a => Run [] (Return a).
#[global] Instance M_bind : MBind M := fun A B f m =>
  match outcome m with
  | Return a => Run (trace m ++ trace (f a)) (outcome (f a))
  | Raise e => Run (trace m) (Raise e)
  end.

Definition emit (e : event) : M () := Run [e] (Return ()).
Definition lift {A} (r : result A) : M A := Run [] r.

(** ** Mask objects *)

(** An instance carries the attributes its [__init__] assigns.
    [ScalarMask.__init__] and [ThresholdedScalarMask.__init__] do not call
    [MaskFile.__init__], so their instances have no [suffix], [scope] or
    [fnames].  [fnames] maps a session to the files of its subjects. *)
Inductive Mask :=
| MaskFile_obj (suffix : string) (scope : option string)
    (fnames : gmap string (gmap string string))
| FullMask_obj
| LabelledMaskFile_obj (suffix : string) (scope : option string)
    (fnames : gmap string (gmap string string))
    (combine : string) (ilabels elabels : option (list Z))
| ThresholdedMaskFile_obj (suffix : string) (scope : option string)
    (fnames : gmap string (gmap string string))
    (combine : string) (lb ub : option float)
| ScalarMask_obj (scalar_name : string)
| ThresholdedScalarMask_obj (scalar_name : string)
    (combine : string) (lb ub : option float)
| CombinedMask_obj (mask_list : list Mask) (combine : string).

Definition type_of (m : Mask) : class :=
  match m with
  | MaskFile_obj _ _ _ => MaskFile
  | FullMask_obj => FullMask
  | LabelledMaskFile_obj _ _ _ _ _ _ => LabelledMaskFile
  | ThresholdedMaskFile_obj _ _ _ _ _ _ => ThresholdedMaskFile
  | ScalarMask_obj _ => ScalarMask
  | ThresholdedScalarMask_obj _ _ _ _ => ThresholdedScalarMask
  | CombinedMask_obj _ _ => CombinedMask
  end.

(** Constructors, with the defaults of the [def __init__] lines. *)
Definition MaskFile__init__ (suffix : string) (scope : option string) : Mask :=
  MaskFile_obj suffix scope ∅.
Definition FullMask__init__ : Mask := FullMask_obj.
Definition LabelledMaskFile__init__ (suffix : string) (scope : option string)
    (inclusive_labels exclusive_labels : option (list Z)) (combine : string) : Mask :=
  LabelledMaskFile_obj suffix scope ∅ combine inclusive_labels exclusive_labels.
Definition LabelledMaskFile_default_combine : string := "or".
Definition ThresholdedMaskFile__init__ (suffix : string) (scope : option string)
    (lower_bound upper_bound : option float) (combine : string) : Mask :=
  ThresholdedMaskFile_obj suffix scope ∅ combine lower_bound upper_bound.
Definition ThresholdedMaskFile_default_combine : string := "and".
Definition ScalarMask__init__ (scalar : string) : Mask := ScalarMask_obj scalar.
Definition ThresholdedScalarMask__init__ (scalar : string)
    (lower_bound upper_bound : option float) (combine : string) : Mask :=
  ThresholdedScalarMask_obj scalar combine lower_bound upper_bound.
Definition CombinedMask__init__ (mask_list : list Mask) (combine : string) : Mask :=
  CombinedMask_obj mask_list combine.
Definition CombinedMask_default_combine : string := "and".

(** Reading an attribute the instance does not have, or calling a method no
    class of its MRO defines. *)
Definition no_attribute {A} (self : Mask) (attr : string) : result A :=
  Raise (AttributeError (class_name (type_of self)) attr).

Definition get_fnames (self : Mask) : result (gmap string (gmap string string)) :=
  match self with
  | MaskFile_obj _ _ f | LabelledMaskFile_obj _ _ f _ _ _
  | ThresholdedMaskFile_obj _ _ f _ _ _ => Return f
  | _ => no_attribute self "fnames"
  end.

Definition set_fnames (f : gmap string (gmap string string)) (self : Mask) : Mask :=
  match self with
  | MaskFile_obj su sc _ => MaskFile_obj su sc f
  | LabelledMaskFile_obj su sc _ c il el => LabelledMaskFile_obj su sc f c il el
  | ThresholdedMaskFile_obj su sc _ c lb ub => ThresholdedMaskFile_obj su sc f c lb ub
  | _ => self
  end.

Definition get_suffix (self : Mask) : result string :=
  match self with
  | MaskFile_obj s _ _ | LabelledMaskFile_obj s _ _ _ _ _
  | ThresholdedMaskFile_obj s _ _ _ _ _ => Return s
  | _ => no_attribute self "suffix"
  end.

Definition get_scope (self : Mask) : result (option string) :=
  match self with
  | MaskFile_obj _ s _ | LabelledMaskFile_obj _ s _ _ _ _
  | ThresholdedMaskFile_obj _ s _ _ _ _ => Return s
  | _ => no_attribute self "scope"
  end.

Definition get_combine (self : Mask) : result string :=
  match self with
  | LabelledMaskFile_obj _ _ _ c _ _ | ThresholdedMaskFile_obj _ _ _ c _ _
  | ThresholdedScalarMask_obj _ c _ _ | CombinedMask_obj _ c => Return c
  | _ => no_attribute self "combine"
  end.

Definition get_ilabels (self : Mask) : result (option (list Z)) :=
  match self with
  | LabelledMaskFile_obj _ _ _ _ il _ => Return il
  | _ => no_attribute self "ilabels"
  end.

Definition get_elabels (self : Mask) : result (option (list Z)) :=
  match self with
  | LabelledMaskFile_obj _ _ _ _ _ el => Return el
  | _ => no_attribute self "elabels"
  end.

Definition get_ub (self : Mask) : result (option float) :=
  match self with
  | ThresholdedMaskFile_obj _ _ _ _ _ ub | ThresholdedScalarMask_obj _ _ _ ub => Return ub
  | _ => no_attribute self "ub"
  end.

Definition get_lb (self : Mask) : result (option float) :=
  match self with
  | ThresholdedMaskFile_obj _ _ _ _ lb _ | ThresholdedScalarMask_obj _ _ lb _ => Return lb
  | _ => no_attribute self "lb"
  end.

Definition get_scalar_name (self : Mask) : result string :=
  match self with
  | ScalarMask_obj n | ThresholdedScalarMask_obj n _ _ _ => Return n
  | _ => no_attribute self "scalar_name"
  end.

(** What a local variable of [CombinedMask.get_mask] may hold. *)
Inductive pyobj :=
| PyNone
| PyCombiner (c : _MaskCombiner.t)
| PyMask (m : Mask).

Definition is_None (o : pyobj) : bool :=
  match o with PyNone => true | _ => false end.

(** [o.combine_mask(other)].  Only [_MaskCombiner] defines [combine_mask];
    on a mask object the lookup goes through its MRO and finds nothing
    ([resolve_combine_mask] below), which is an [AttributeError]. *)
Definition py_combine_mask (o : pyobj) (other : ndarray) : pyobj * result () :=
  match o with
  | PyNone => (o, Raise (AttributeError "NoneType" "combine_mask"))
  | PyCombiner c =>
      let '(c', r) := _MaskCombiner.combine_mask c other in (PyCombiner c', r)
  | PyMask m => (o, no_attribute m "combine_mask")
  end.

(** [o.mask]: an instance attribute of [_MaskCombiner] only. *)
Definition py_mask (o : pyobj) : result ndarray :=
  match o with
  | PyNone => Raise (AttributeError "NoneType" "mask")
  | PyCombiner c => Return (_MaskCombiner.mask c)
  | PyMask m => no_attribute m "mask"
  end.

(** The attributes an instance carries, by the assignments of its
    [__init__]. *)
Definition instance_attrs (m : Mask) : list string :=
  match m with
  | MaskFile_obj _ _ _ => ["suffix"; "scope"; "fnames"]
  | FullMask_obj => []
  | LabelledMaskFile_obj _ _ _ _ _ _ =>
      ["suffix"; "scope"; "fnames"; "combine"; "ilabels"; "elabels"]
  | ThresholdedMaskFile_obj _ _ _ _ _ _ =>
      ["suffix"; "scope"; "fnames"; "combine"; "lb"; "ub"]
  | ScalarMask_obj _ => ["scalar_name"]
  | ThresholdedScalarMask_obj _ _ _ _ => ["scalar_name"; "combine"; "lb"; "ub"]
  | CombinedMask_obj _ _ => ["mask_list"; "combine"]
  end.

(** [hasattr(o, name)]: an instance attribute, or a method of a class of the
    MRO ([None] is an instance of a class that derives from [object] only).
    Of the names every Python object has, only [__init__] is listed. *)
Definition hasattr (o : pyobj) (name : string) : bool :=
  match o with
  | PyNone => bool_decide (is_Some (resolve object name))
  | PyCombiner _ =>
      bool_decide (name ∈ ["combine"; "mask"])
      || bool_decide (is_Some (resolve _MaskCombiner_class name))
  | PyMask m =>
      bool_decide (name ∈ instance_attrs m)
      || bool_decide (is_Some (resolve (type_of m) name))
  end.

(** [check_mask_methods(mask, mask_name=False)]; [mask_name] is [False]
    ([None] here) or the name to report. *)
Definition check_mask_methods (mask : pyobj) (mask_name : option string) : result bool :=
  let error := bool_decide (mask_name ≠ None) in
  if negb (hasattr mask "find_path") then
    if error then
      Raise (TypeError ("find_path method not found in " +:+ default "" mask_name))
    else Return false
  else if negb (hasattr mask "get_mask") then
    if error then
      Raise (TypeError ("get_mask method not found in " +:+ default "" mask_name))
    else Return false
  else Return true.

(** [', '.join(names)] *)
Fixpoint join (sep : string) (names : list string) : string :=
  match names with
  | [] => ""
  | [n] => n
  | n :: rest => n +:+ sep +:+ join sep rest
  end.

(** [d[key]] on an ordered dict with string keys. *)
Fixpoint dict_get {A} (d : list (string * A)) (key : string) : result A :=
  match d with
  | [] => Raise (KeyError key)
  | (k, v) :: rest => if String.eqb k key then Return v else dict_get rest key
  end.

(** ** The module's functions and methods *)

Section mask.
Context `{Collaborators}.

(** [np.round(a)] on float64 data and [a.astype(t)]. *)
Definition np_round (s : list nat) (l : list float) : ndarray :=
  NDArray s (FloatBuf (np_round1 <$> l)).

Definition astype (a : ndarray) (t : dtype) : ndarray :=
  NDArray (shape a)
    match t, buf a with
    | np_float64, b => FloatBuf (as_floats b)
    | np_bool, b => BoolBuf (truth b)
    | np_int64, BoolBuf l => IntBuf (Z.b2z <$> l)
    | np_int64, IntBuf l => IntBuf l
    | np_int64, FloatBuf l => IntBuf (int_of_float <$> l)
    end.

(** [_resample_mask(mask_data, dwi_data, mask_affine, dwi_affine)] *)
Definition _resample_mask (mask_data : ndarray) (dwi_data : option ndarray)
    (mask_affine : Affine) (dwi_affine : option Affine) : M ndarray :=
  emit resample_mask_called;;
  let mask_type := dtype_of mask_data in
  match dwi_data, dwi_affine with
  | Some dwi_data, Some dwi_affine =>
      dwi0 ← lift (index_last_0 dwi_data);
      if bool_decide (shape dwi0 ≠ shape mask_data) then
        emit reg_resample_called;;
        let '(s, l) := reg_resample (astype mask_data np_float64) dwi0
                         mask_affine dwi_affine in
        mret (astype (np_round s l) mask_type)
      else mret mask_data
  | _, _ => mret mask_data
  end.

(** *** MaskFile *)

(** [MaskFile.find_path]: the object after the call and the call's
    outcome.  The session's dict is created before the layout is queried,
    so it stays when the query finds nothing and [[0]] raises. *)
Definition MaskFile_find_path (self : Mask) (bids_layout : BIDSLayout)
    (subject session : string) : Mask * M () :=
  match get_fnames self with
  | Raise e => (self, lift (Raise e))
  | Return fnames =>
      let fnames :=
        match fnames !! session with
        | None => <[session := ∅]> fnames
        | Some _ => fnames
        end in
      let self := set_fnames fnames self in
      match get_suffix self, get_scope self with
      | Return suffix, Return scope =>
          let called := [bids_get_called subject session suffix scope] in
          match layout_get bids_layout subject session ".nii.gz" suffix
                  "filename" scope with
          | [] => (self, Run called (Raise (IndexError "list index out of range")))
          | fname :: _ =>
              match fnames !! session with
              | Some of_session =>
                  (set_fnames (<[session := <[subject := fname]> of_session]> fnames) self,
                   Run called (Return ()))
              | None => (self, Run called (Raise (KeyError session)))
              end
          end
      | Raise e, _ | _, Raise e => (self, lift (Raise e))
      end
  end.

(** [MaskFile.get_path_data_affine] *)
Definition MaskFile_get_path_data_affine (self : Mask) (afq : AFQ) (row : Row)
    : M (string * ndarray * Affine) :=
  fnames ← lift (get_fnames self);
  of_session ← lift (match fnames !! ses row with
                     | Some d => Return d
                     | None => Raise (KeyError (ses row))
                     end);
  mask_file ← lift (match of_session !! subject row with
                    | Some f => Return f
                    | None => Raise (KeyError (subject row))
                    end);
  emit (nib_load_called mask_file);;
  let mask_img := nib_load mask_file in
  mret (mask_file, get_fdata mask_img, affine mask_img).

(** [MaskFile.apply_conditions] *)
Definition MaskFile_apply_conditions (self : Mask) (mask_data_orig : ndarray)
    (mask_file : string) : result (ndarray * meta) :=
  Return (mask_data_orig, [("source", PStr mask_file)]).

(** *** LabelledMaskFile *)

(** [LabelledMaskFile.apply_conditions] *)
Definition LabelledMaskFile_apply_conditions (self : Mask) (mask_data_orig : ndarray)
    (mask_file : string) : result (ndarray * meta) :=
  combine ← get_combine self;
  mask ← _MaskCombiner.__init__ (shape mask_data_orig) combine;
  ilabels ← get_ilabels self;
  mask ← match ilabels with
         | Some labels =>
             let '(mask, r) := _MaskCombiner.combine_masks mask
                                 (np_eq mask_data_orig <$> labels) in
             r;; Return mask
         | None => Return mask
         end;
  elabels ← get_elabels self;
  mask ← match elabels with
         | Some labels =>
             let '(mask, r) := _MaskCombiner.combine_masks mask
                                 (np_ne mask_data_orig <$> labels) in
             r;; Return mask
         | None => Return mask
         end;
  let meta := [("source", PStr mask_file);
               ("inclusive_labels", of_optional (fun l => PList (PInt <$> l)) ilabels);
               ("exclusive_lavels", of_optional (fun l => PList (PInt <$> l)) elabels);
               ("combined_with", PStr combine)] in
  Return (_MaskCombiner.mask mask, meta).

(** *** ThresholdedMaskFile *)

(** [ThresholdedMaskFile.apply_conditions] *)
Definition ThresholdedMaskFile_apply_conditions (self : Mask) (mask_data_orig : ndarray)
    (mask_file : string) : result (ndarray * meta) :=
  combine ← get_combine self;
  mask ← _MaskCombiner.__init__ (shape mask_data_orig) combine;
  ub ← get_ub self;
  mask ← match ub with
         | Some ub =>
             let '(mask, r) := _MaskCombiner.combine_mask mask (np_lt mask_data_orig ub) in
             r;; Return mask
         | None => Return mask
         end;
  lb ← get_lb self;
  mask ← match lb with
         | Some lb =>
             let '(mask, r) := _MaskCombiner.combine_mask mask (np_gt mask_data_orig lb) in
             r;; Return mask
         | None => Return mask
         end;
  let meta := [("source", PStr mask_file);
               ("upper_bound", of_optional PFloat ub);
               ("lower_bound", of_optional PFloat lb);
               ("combined_with", PStr combine)] in
  Return (_MaskCombiner.mask mask, meta).

(** *** ScalarMask *)

(** [ScalarMask.find_path]: [pass]. *)
Definition ScalarMask_find_path (self : Mask) (bids_layout : BIDSLayout)
    (subject session : string) : Mask * M () :=
  (self, mret ()).

(** [ScalarMask.get_path_data_affine] *)
Definition ScalarMask_get_path_data_affine (self : Mask) (afq : AFQ) (row : Row)
    : M (string * ndarray * Affine) :=
  let valid_scalars := (_scalar_dict afq).*1 in
  scalar_name ← lift (get_scalar_name self);
  (if bool_decide (scalar_name ∉ valid_scalars) then
     lift (Raise (RuntimeError ("scalar should be one of " +:+ join ", " valid_scalars
                                  +:+ ", you input " +:+ scalar_name)))
   else mret ());;
  scalar_fn ← lift (dict_get (_scalar_dict afq) scalar_name);
  emit (scalar_called scalar_name row);;
  let scalar_fname := scalar_fn row in
  emit (nib_load_called scalar_fname);;
  let scalar_img := nib_load scalar_fname in
  let scalar_data := get_fdata scalar_img in
  mret (scalar_fname, scalar_data, affine scalar_img).

(** *** Method calls on [self] *)

Definition call_get_path_data_affine (self : Mask) (afq : AFQ) (row : Row)
    : M (string * ndarray * Affine) :=
  match resolve (type_of self) "get_path_data_affine" with
  | Some MaskFile => MaskFile_get_path_data_affine self afq row
  | Some ScalarMask => ScalarMask_get_path_data_affine self afq row
  | _ => lift (no_attribute self "get_path_data_affine")
  end.

Definition call_apply_conditions (self : Mask) (mask_data_orig : ndarray)
    (mask_file : string) : result (ndarray * meta) :=
  match resolve (type_of self) "apply_conditions" with
  | Some MaskFile => MaskFile_apply_conditions self mask_data_orig mask_file
  | Some LabelledMaskFile => LabelledMaskFile_apply_conditions self mask_data_orig mask_file
  | Some ThresholdedMaskFile =>
      ThresholdedMaskFile_apply_conditions self mask_data_orig mask_file
  | _ => no_attribute self "apply_conditions"
  end.

(** [MaskFile.get_mask] *)
Definition MaskFile_get_mask (self : Mask) (afq : AFQ) (row : Row) : M (ndarray * meta) :=
  emit (get_data_gtab_called row);;
  let '(dwi_data, _, dwi_img) := _get_data_gtab afq row in
  '(mask_file, mask_data_orig, mask_affine) ← call_get_path_data_affine self afq row;
  '(mask_data, meta) ← lift (call_apply_conditions self mask_data_orig mask_file);
  mask_data ← _resample_mask mask_data (Some dwi_data) mask_affine
                (Some (affine dwi_img));
  mret (mask_data, meta).

(** *** FullMask *)

(** [FullMask.find_path]: [pass]. *)
Definition FullMask_find_path (self : Mask) (bids_layout : BIDSLayout)
    (subject session : string) : Mask * M () :=
  (self, mret ()).

(** [FullMask.get_mask] *)
Definition FullMask_get_mask (self : Mask) (afq : AFQ) (row : Row) : M (ndarray * meta) :=
  emit (get_data_gtab_called row);;
  let '(dwi_data, _, _) := _get_data_gtab afq row in
  mret (np_ones (shape dwi_data), [("source", PStr "Entire Volume")]).

(** *** CombinedMask *)

(** The [for mask in self.mask_list] loop of [CombinedMask.find_path];
    the first child that raises ends it.  [call] is the method call
    [mask.find_path(bids_layout, subject, session)]. *)
Definition CombinedMask_find_path_loop (call : Mask → Mask * M ())
    : list Mask → list Mask * M () :=
  fix loop (mask_list : list Mask) :=
    match mask_list with
    | [] => ([], mret ())
    | mask :: rest =>
        let '(mask', r) := call mask in
        match outcome r with
        | Return _ =>
            let '(rest', r') := loop rest in
            (mask' :: rest', Run (trace r ++ trace r') (outcome r'))
        | Raise e => (mask' :: rest, r)
        end
    end.

(** [o.find_path(bids_layout, subject, session)] *)
Fixpoint find_path (self : Mask) (bids_layout : BIDSLayout)
    (subject session : string) {struct self} : Mask * M () :=
  match resolve (type_of self) "find_path" with
  | Some MaskFile => MaskFile_find_path self bids_layout subject session
  | Some FullMask => FullMask_find_path self bids_layout subject session
  | Some ScalarMask => ScalarMask_find_path self bids_layout subject session
  | Some CombinedMask =>
      match self with
      | CombinedMask_obj mask_list combine =>
          let '(mask_list', r) :=
            CombinedMask_find_path_loop
              (fun mask => find_path mask bids_layout subject session) mask_list in
          (CombinedMask_obj mask_list' combine, r)
      | _ => (self, lift (no_attribute self "mask_list"))
      end
  | _ => (self, lift (no_attribute self "find_path"))
  end.

(** [o.get_mask(afq, row)] on whatever a local variable holds; [call] is
    the method call on a mask object. *)
Definition py_get_mask (call : Mask → M (ndarray * meta)) (o : pyobj)
    : M (ndarray * meta) :=
  match o with
  | PyNone => lift (Raise (AttributeError "NoneType" "get_mask"))
  | PyCombiner _ => lift (Raise (AttributeError "_MaskCombiner" "get_mask"))
  | PyMask m => call m
  end.

(** The [for mask in self.mask_list] loop of [CombinedMask.get_mask].  The
    loop variable is the local [mask] that was set to [None] before the
    loop: each iteration rebinds it to the child, so the [mask is None]
    test and [mask.combine_mask] act on the child. *)
Definition CombinedMask_get_mask_loop (call : Mask → M (ndarray * meta))
    (self_combine : string) : list Mask → pyobj → list meta → M (pyobj * list meta) :=
  fix loop (mask_list : list Mask) (mask : pyobj) (metas : list meta) :=
    match mask_list with
    | [] => mret (mask, metas)
    | child :: rest =>
        let mask := PyMask child in
        '(next_mask, next_meta) ← py_get_mask call mask;
        mask ← (if is_None mask then
                  c ← lift (_MaskCombiner.__init__ (shape next_mask) self_combine);
                  mret (PyCombiner c)
                else
                  let '(mask, r) := py_combine_mask mask next_mask in
                  lift r;; mret mask);
        loop rest mask (metas ++ [next_meta])
    end.

(** [o.get_mask(afq, row)] *)
Fixpoint get_mask (self : Mask) (afq : AFQ) (row : Row) {struct self}
    : M (ndarray * meta) :=
  match resolve (type_of self) "get_mask" with
  | Some MaskFile => MaskFile_get_mask self afq row
  | Some FullMask => FullMask_get_mask self afq row
  | Some CombinedMask =>
      (* CombinedMask.get_mask *)
      match self with
      | CombinedMask_obj mask_list combine =>
          let mask := PyNone in
          let metas := [] in
          '(mask, metas) ←
            CombinedMask_get_mask_loop (fun child => get_mask child afq row)
              combine mask_list mask metas;
          let meta := [("sources", PList (PDict <$> metas));
                       ("combined_with", PStr combine)] in
          mask_data ← lift (py_mask mask);
          mret (mask_data, meta)
      | _ => lift (no_attribute self "mask_list")
      end
  | _ => lift (no_attribute self "get_mask")
  end.

End mask.

(** ** Reference kernels and sample data *)

(** Round half to even on binary64, the rounding of [np.round]: adding and
    subtracting 2^52 rounds to an integer in the default rounding mode; the
    sign of a zero result is that of the argument. *)
Definition rint (x : float) : float :=
  let big := 4503599627370496%float in
  if PrimFloat.ltb (PrimFloat.abs x) big then
    let r := if PrimFloat.ltb x 0 then ((x - big) + big)%float
             else ((x + big) - big)%float in
    if PrimFloat.eqb r 0 then (x * 0)%float else r
  else x.

(** Truncation toward zero of a finite binary64; NaN and the infinities,
    which C leaves undefined, go to 0. *)
Definition trunc_int64 (x : float) : Z :=
  match Prim2SF x with
  | SpecFloat.S754_finite s m e =>
      let mag := (if 0 <=? e then Z.shiftl (Z.pos m) e
                  else Z.shiftr (Z.pos m) (- e))%Z in
      if s then (- mag)%Z else mag
  | _ => 0%Z
  end.

Definition identity_affine : Affine :=
  [[1; 0; 0; 0]; [0; 1; 0; 0]; [0; 0; 1; 0]; [0; 0; 0; 1]]%float.

(** Sample collaborators: every file holds the same 2x2 volume, and
    resampling yields the constant 0.6 on the grid of the static volume. *)
Definition sample_volume : ndarray :=
  NDArray [2; 2] (FloatBuf [0.05; 0.5; 0.9; 0.8]%float).

Definition sample_collaborators : Collaborators := {|
  reg_resample := fun moving static _ _ =>
    (shape static, replicate (numel (shape static)) 0.6%float);
  nib_load := fun fname =>
    {| img_shape := [2; 2]; img_fdata := [0.05; 0.5; 0.9; 0.8]%float;
       affine := identity_affine |};
  np_round1 := rint;
  int_of_float := trunc_int64
|}.

(** A 2x2 volume with three directions. *)
Definition sample_dwi : ndarray := NDArray [2; 2; 3] (FloatBuf (replicate 12 1%float)).

Definition sample_afq : AFQ := {|
  _get_data_gtab := fun row =>
    (sample_dwi, {| bvals := []; bvecs := [] |},
     {| img_shape := [2; 2; 3]; img_fdata := replicate 12 1%float;
        affine := identity_affine |});
  _scalar_dict := [("dti_fa", fun row => "dti_fa.nii.gz");
                   ("dti_md", fun row => "dti_md.nii.gz")]
|}.

Definition sample_row : Row := {| ses := "01"; subject := "A" |}.

(** A layout that has files for subject "A" only. *)
Definition sample_layout : BIDSLayout := {|
  layout_get := fun subject session extension suffix return_type scope =>
    if String.eqb subject "A" then ["/data/sub-A/" +:+ suffix +:+ extension] else []
|}.

Definition sample_labels : ndarray := NDArray [4] (FloatBuf [0; 1; 2; 3]%float).

(** * Properties *)

(** ** Specification vocabulary *)

(** The bool array of the shape of [a] that is true exactly at the positions
    whose element satisfies [test]. *)
Definition where_ (a : ndarray) (test : scalar → bool) : ndarray :=
  NDArray (shape a) (BoolBuf (test <$> elements (buf a))).

(** The binary operator and the identity element an operator tag stands for. *)
Definition operator_of (tag : string) : option ((bool → bool → bool) * bool) :=
  if String.eqb tag "or" then Some (orb, false)
  else if String.eqb tag "and" then Some (andb, true)
  else None.

(** The value of one position after folding the label tests: [v == n] for
    each inclusive label, then [v != n] for each exclusive label. *)
Definition fold_labels (op : bool → bool → bool) (unit : bool)
    (inclusive exclusive : list Z) (v : scalar) : bool :=
  foldl (fun acc n => op acc (ne_int v n))
    (foldl (fun acc n => op acc (eq_int v n)) unit inclusive) exclusive.

(** The file cached for a (session, subject) pair, if any. *)
Definition cached (self : Mask) (session subject : string) : option string :=
  match get_fnames self with
  | Return fnames => fnames !! session ≫= fun d => d !! subject
  | Raise _ => None
  end.

(** Masks whose source is a file found by [MaskFile.find_path]. *)
Definition file_backed (self : Mask) : bool :=
  match self with
  | MaskFile_obj _ _ _ | LabelledMaskFile_obj _ _ _ _ _ _
  | ThresholdedMaskFile_obj _ _ _ _ _ _ => true
  | _ => false
  end.

(** The instance after a history of [find_path] calls, each given as
    (layout, subject, session); a call that raised still counts, with
    whatever it changed before raising. *)
Definition after_find_paths `{Collaborators} (self : Mask)
    (calls : list (BIDSLayout * string * string)) : Mask :=
  foldl (fun m c => (find_path m c.1.1 c.1.2 c.2).1) self calls.

(** The composite the spec describes for ThresholdedScalarMask, written
    from its words: the data of the reference volume, then the scalar-source
    resolution of a ScalarMask [source], then the threshold condition logic
    of a ThresholdedMaskFile [conditions] on the resolved data, then the
    resampling of the result. *)
Definition ThresholdedScalarMask_composed `{Collaborators}
    (source conditions : Mask) (afq : AFQ) (row : Row) : M (ndarray * meta) :=
  emit (get_data_gtab_called row);;
  let '(dwi_data, _, dwi_img) := _get_data_gtab afq row in
  '(scalar_fname, scalar_data, scalar_affine) ←
    ScalarMask_get_path_data_affine source afq row;
  '(mask_data, meta) ←
    lift (ThresholdedMaskFile_apply_conditions conditions scalar_data scalar_fname);
  mask_data ← _resample_mask mask_data (Some dwi_data) scalar_affine
                (Some (affine dwi_img));
  mret (mask_data, meta).

(** Unfolding of the [result] monad and of attribute reads, leaving array
    operations folded. *)
Ltac run_result :=
  cbn [mbind result_bind fmap result_fmap mret result_ret fst snd
       get_combine get_ub get_lb get_ilabels get_elabels
       _MaskCombiner.mask _MaskCombiner.combine default of_optional].

(** Unfolding of the trace monad, leaving the calls folded. *)
Ltac run_M := cbn [mbind M_bind mret M_ret emit lift outcome trace app fst snd].

(** ** Worked examples *)

Example ex_broadcast : broadcast_shapes [2; 1; 3] [4; 1] = Some [2; 4; 3]
  /\ broadcast_shapes [2] [3] = None
  /\ broadcast_to [2; 1] [2; 3] [10; 20] = [10; 10; 10; 20; 20; 20]
  /\ broadcast_to [3] [2; 3] [1; 2; 3] = [1; 2; 3; 1; 2; 3]
  /\ firsts 3 [1; 2; 3; 4; 5; 6] = [1; 4].
Proof. vm_compute. repeat split. Qed.

Example ex_float_of_int :
  float_of_int (- 2 ^ 63) = (-9223372036854775808)%float
  /\ float_of_int (2 ^ 63 - 1) = 9223372036854775808%float
  /\ float_of_int (2 ^ 53 + 1) = 9007199254740992%float
  /\ float_of_int (2 ^ 53 + 3) = 9007199254740996%float
  /\ float_of_int (-7) = (-7)%float.
Proof. vm_compute. repeat split. Qed.

Example ex_mro :
  mro ThresholdedScalarMask
    = [ThresholdedScalarMask; ThresholdedMaskFile; ScalarMask; MaskFile; object]
  /\ mro LabelledMaskFile = [LabelledMaskFile; MaskFile; object]
  /\ resolve ThresholdedScalarMask "get_path_data_affine" = Some ScalarMask
  /\ resolve ThresholdedScalarMask "apply_conditions" = Some ThresholdedMaskFile
  /\ resolve FullMask "combine_mask" = None.
Proof. vm_compute. repeat split. Qed.

(** ** Arrays and broadcasting *)

Section array_lemmas.
Context {A : Type}.
Implicit Types l : list A.

Lemma chunks_concat k n l : length l = n * k → concat (chunks k n l) = l.
Proof.
  revert l. induction n as [|n IH]; intros l Hl; simpl in *.
  - by apply nil_length_inv in Hl.
  - rewrite IH; [apply take_drop|]. rewrite length_drop. lia.
Qed.

Lemma chunks_lengths k n l :
  length l = n * k → Forall (fun c => length c = k) (chunks k n l).
Proof.
  revert l. induction n as [|n IH]; intros l Hl; simpl in *; constructor.
  - rewrite length_take. lia.
  - apply IH. rewrite length_drop. lia.
Qed.

Lemma stretch_same s l : length l = numel s → stretch s s l = l.
Proof.
  revert l. induction s as [|d s IH]; intros l Hl; [done|].
  simpl in *. rewrite Nat.eqb_refl.
  rewrite <- (chunks_concat (numel s) d l) at 2 by done.
  f_equal. rewrite <- (list_fmap_id (chunks (numel s) d l)) at 2.
  apply Forall_fmap_ext_1. eapply Forall_impl; [by apply chunks_lengths|].
  intros c Hc. by apply IH.
Qed.

Lemma broadcast_to_same s l : length l = numel s → broadcast_to s s l = l.
Proof.
  intros Hl. unfold broadcast_to. rewrite Nat.sub_diag. by apply stretch_same.
Qed.
End array_lemmas.

Lemma broadcast_rev_same r : broadcast_rev r r = Some r.
Proof.
  induction r as [|d r IH]; [done|]. simpl. rewrite IH. simpl.
  by rewrite Nat.eqb_refl.
Qed.

Lemma broadcast_shapes_same s : broadcast_shapes s s = Some s.
Proof.
  unfold broadcast_shapes. rewrite broadcast_rev_same. simpl.
  by rewrite reverse_involutive.
Qed.

Lemma truth_bool l : truth (BoolBuf l) = l.
Proof.
  unfold truth. simpl. rewrite <- list_fmap_compose. apply list_fmap_id.
Qed.

(** Two masks over the same array combine position by position. *)
Lemma np_logical_where op a f g :
  well_formed a →
  np_logical op (where_ a f) (where_ a g) = Return (where_ a (fun v => op (f v) (g v))).
Proof.
  intros [Ha _]. unfold np_logical. simpl. rewrite broadcast_shapes_same.
  rewrite !truth_bool, !broadcast_to_same
    by (rewrite length_fmap; exact Ha).
  unfold where_. do 3 f_equal.
  rewrite zip_with_fmap_l, zip_with_fmap_r. apply zip_with_diag.
Qed.

Lemma np_zeros_bool_where a : well_formed a → np_zeros_bool (shape a) = where_ a (fun _ => false).
Proof.
  intros [Ha _]. unfold np_zeros_bool, where_. do 2 f_equal.
  rewrite <- Ha. symmetry. by apply const_fmap.
Qed.

Lemma np_ones_bool_where a : well_formed a → np_ones_bool (shape a) = where_ a (fun _ => true).
Proof.
  intros [Ha _]. unfold np_ones_bool, where_. do 2 f_equal.
  rewrite <- Ha. symmetry. by apply const_fmap.
Qed.

Lemma where_ext a f g : (∀ v, f v = g v) → where_ a f = where_ a g.
Proof. intros E. unfold where_. do 2 f_equal. by apply list_fmap_ext. Qed.

(** ** _MaskCombiner *)

Lemma operator_of_cases tag op unit :
  operator_of tag = Some (op, unit) →
  (tag = "or" ∧ op = orb ∧ unit = false) ∨ (tag = "and" ∧ op = andb ∧ unit = true).
Proof.
  unfold operator_of. intros E.
  destruct (String.eqb_spec tag "or") as [->|_]; [left; naive_solver|].
  destruct (String.eqb_spec tag "and") as [->|_]; [right; naive_solver|done].
Qed.

Lemma init_operator S tag op unit :
  operator_of tag = Some (op, unit) →
  _MaskCombiner.__init__ S tag
    = Return (_MaskCombiner.Build tag (NDArray S (BoolBuf (replicate (numel S) unit)))).
Proof. by intros [(-> & -> & ->)|(-> & -> & ->)]%operator_of_cases. Qed.

Lemma combine_mask_operator c other op unit :
  operator_of (_MaskCombiner.combine c) = Some (op, unit) →
  _MaskCombiner.combine_mask c other
    = match np_logical op (_MaskCombiner.mask c) other with
      | Return m => (_MaskCombiner.Build (_MaskCombiner.combine c) m, Return ())
      | Raise e => (c, Raise e)
      end.
Proof.
  intros [(E & -> & _)|(E & -> & _)]%operator_of_cases;
    unfold _MaskCombiner.combine_mask; by rewrite E.
Qed.

Lemma combine_mask_where tag a f g op unit :
  operator_of tag = Some (op, unit) → well_formed a →
  _MaskCombiner.combine_mask (_MaskCombiner.Build tag (where_ a f)) (where_ a g)
    = (_MaskCombiner.Build tag (where_ a (fun v => op (f v) (g v))), Return ()).
Proof.
  intros Hop Ha. rewrite (combine_mask_operator _ _ op unit) by done.
  simpl. by rewrite np_logical_where.
Qed.

Lemma combine_masks_where {X} tag a (test : scalar → X → bool) xs f op unit :
  operator_of tag = Some (op, unit) → well_formed a →
  _MaskCombiner.combine_masks (_MaskCombiner.Build tag (where_ a f))
      (np_compare test a <$> xs)
    = (_MaskCombiner.Build tag
         (where_ a (fun v => foldl (fun acc x => op acc (test v x)) (f v) xs)),
       Return ()).
Proof.
  intros Hop Ha. revert f. induction xs as [|x xs IH]; intros f; [done|].
  simpl. change (np_compare test a x) with (where_ a (fun v => test v x)).
  rewrite (combine_mask_where _ _ _ _ op unit) by done. apply IH.
Qed.

(** C5: a combiner on which no fold is performed holds the identity of its
    operator, all-false of shape S for "or" and all-true of shape S for
    "and"; label-based condition application with both label lists None
    returns exactly that array, for the shape of the data. *)
Theorem zero_folds_give_identity (S : list nat) (data : ndarray) (suffix : string)
    (scope : option string) (fnames : gmap string (gmap string string))
    (mask_file : string) :
  (∃ c, _MaskCombiner.__init__ S "or" = Return c
        ∧ _MaskCombiner.combine_masks c [] = (c, Return ())
        ∧ _MaskCombiner.mask c = NDArray S (BoolBuf (replicate (numel S) false)))
  ∧ (∃ c, _MaskCombiner.__init__ S "and" = Return c
        ∧ _MaskCombiner.combine_masks c [] = (c, Return ())
        ∧ _MaskCombiner.mask c = NDArray S (BoolBuf (replicate (numel S) true)))
  ∧ fst <$> LabelledMaskFile_apply_conditions
              (LabelledMaskFile_obj suffix scope fnames "or" None None) data mask_file
    = Return (NDArray (shape data) (BoolBuf (replicate (numel (shape data)) false)))
  ∧ fst <$> LabelledMaskFile_apply_conditions
              (LabelledMaskFile_obj suffix scope fnames "and" None None) data mask_file
    = Return (NDArray (shape data) (BoolBuf (replicate (numel (shape data)) true))).
Proof.
  split; [|split]; [eexists; by repeat split..|].
  by split.
Qed.

(** C7: an operator tag outside "and"/"or" makes the constructor raise the
    configuration error, whatever the shape, and makes [combine_mask] on a
    combiner whose tag was set to it raise the same error whatever array it
    is given, the combiner (running mask included) staying as it was.  With
    "and" or "or" the constructor returns, [combine_mask] raises no
    configuration error, and it returns whenever the array broadcasts
    against the running mask. *)
Theorem combiner_tag_check (tag : string) :
  (tag ≠ "and" → tag ≠ "or" →
     let err := TypeError ("combine should be either 'or' or 'and', you set combine to "
                             +:+ tag) in
     is_configuration_error err = true
     ∧ (∀ S, _MaskCombiner.__init__ S tag = Raise err)
     ∧ (∀ c other_mask,
          let c' := _MaskCombiner.set_combine tag c in
          _MaskCombiner.combine_mask c' other_mask = (c', Raise err)
          ∧ _MaskCombiner.mask c' = _MaskCombiner.mask c))
  ∧ (tag = "and" ∨ tag = "or" →
     (∀ S, ∃ c, _MaskCombiner.__init__ S tag = Return c ∧ _MaskCombiner.combine c = tag)
     ∧ (∀ c other_mask e,
          (_MaskCombiner.combine_mask (_MaskCombiner.set_combine tag c) other_mask).2 = Raise e →
          is_configuration_error e = false)
     ∧ (∀ c other_mask s,
          broadcast_shapes (shape (_MaskCombiner.mask c)) (shape other_mask) = Some s →
          (_MaskCombiner.combine_mask (_MaskCombiner.set_combine tag c) other_mask).2
            = Return ())).
Proof.
  split.
  - intros Ha Ho. simpl.
    assert (String.eqb tag "or" = false) as Eo by by apply String.eqb_neq.
    assert (String.eqb tag "and" = false) as Ea by by apply String.eqb_neq.
    split; [done|]. split.
    + intros S. unfold _MaskCombiner.__init__. by rewrite Eo, Ea.
    + intros c other_mask. unfold _MaskCombiner.combine_mask. simpl.
      by rewrite Eo, Ea.
  - intros Htag.
    assert (∃ op unit, operator_of tag = Some (op, unit)) as (op & unit & Hop)
      by (destruct Htag as [->| ->]; by eexists _, _).
    split; [|split].
    + intros S. rewrite (init_operator _ _ op unit) by done. by eexists.
    + intros c other_mask e. rewrite (combine_mask_operator _ _ op unit) by done.
      simpl. unfold np_logical.
      destruct (broadcast_shapes _ _); simpl; [done|]. by intros [= <-].
    + intros c other_mask s Hs. rewrite (combine_mask_operator _ _ op unit) by done.
      simpl. unfold np_logical. by rewrite Hs.
Qed.

Lemma init_or_where a :
  well_formed a →
  _MaskCombiner.__init__ (shape a) "or"
    = Return (_MaskCombiner.Build "or" (where_ a (fun _ => false))).
Proof. intros Ha. by rewrite <- np_zeros_bool_where. Qed.

Lemma init_and_where a :
  well_formed a →
  _MaskCombiner.__init__ (shape a) "and"
    = Return (_MaskCombiner.Build "and" (where_ a (fun _ => true))).
Proof. intros Ha. by rewrite <- np_ones_bool_where. Qed.

Lemma init_where a tag op unit :
  operator_of tag = Some (op, unit) → well_formed a →
  _MaskCombiner.__init__ (shape a) tag
    = Return (_MaskCombiner.Build tag (where_ a (fun _ => unit))).
Proof.
  intros [(-> & -> & ->)|(-> & -> & ->)]%operator_of_cases Ha;
    [by apply init_or_where | by apply init_and_where].
Qed.

(** ** Condition application *)

(** C3: with operator "and", thresholding yields the bool array that is true
    exactly where lower_bound < value < upper_bound (both strict) when both
    bounds are set; a bound that is None folds nothing in: exactly where
    value > lower_bound with a lower bound only, exactly where
    value < upper_bound with an upper bound only.  For every array: as many
    elements as its shape says, int64 elements in the range of an int64. *)
Theorem thresholds_select_open_interval (suffix : string) (scope : option string)
    (fnames : gmap string (gmap string string)) (data : ndarray) (mask_file : string)
    (lower_bound upper_bound : float) :
  well_formed data →
  let apply lb ub :=
    fst <$> ThresholdedMaskFile_apply_conditions
              (ThresholdedMaskFile_obj suffix scope fnames "and" lb ub) data mask_file in
  apply (Some lower_bound) (Some upper_bound)
    = Return (where_ data (fun v => PrimFloat.ltb lower_bound (to_float v)
                                    && PrimFloat.ltb (to_float v) upper_bound))
  ∧ apply (Some lower_bound) None
    = Return (where_ data (fun v => PrimFloat.ltb lower_bound (to_float v)))
  ∧ apply None (Some upper_bound)
    = Return (where_ data (fun v => PrimFloat.ltb (to_float v) upper_bound)).
Proof.
  intros Hd apply. subst apply. cbv beta.
  unfold ThresholdedMaskFile_apply_conditions. run_result.
  rewrite init_and_where by done. run_result.
  change (np_lt data upper_bound) with (where_ data (fun v => lt_float v upper_bound)).
  change (np_gt data lower_bound) with (where_ data (fun v => gt_float v lower_bound)).
  rewrite !(combine_mask_where "and" _ _ _ andb true) by done. run_result.
  rewrite !(combine_mask_where "and" _ _ _ andb true) by done. run_result.
  repeat split; f_equal; apply where_ext; intros v;
    unfold lt_float, gt_float; cbn [andb]; [apply andb_comm|done..].
Qed.

(** C4: label-based condition application folds (array == label) for each
    inclusive label and (array != label) for each exclusive label under the
    configured operator, starting from its identity; with
    inclusive_labels=[1,2], exclusive_labels=None and "or", the result is
    true exactly at the positions whose value is 1 or 2.  For every array
    and all labels in the range of an int64. *)
Theorem labels_fold_under_operator (suffix : string) (scope : option string)
    (fnames : gmap string (gmap string string)) (data : ndarray) (mask_file : string)
    (combine : string) (op : bool → bool → bool) (unit : bool)
    (inclusive_labels exclusive_labels : option (list Z)) :
  well_formed data →
  forallb is_int64 (default [] inclusive_labels) = true →
  forallb is_int64 (default [] exclusive_labels) = true →
  operator_of combine = Some (op, unit) →
  fst <$> LabelledMaskFile_apply_conditions
            (LabelledMaskFile_obj suffix scope fnames combine
               inclusive_labels exclusive_labels) data mask_file
    = Return (where_ data (fold_labels op unit (default [] inclusive_labels)
                             (default [] exclusive_labels)))
  ∧ fst <$> LabelledMaskFile_apply_conditions
              (LabelledMaskFile_obj suffix scope fnames "or" (Some [1; 2]%Z) None)
              data mask_file
    = Return (where_ data (fun v => eq_int v 1 || eq_int v 2)).
Proof.
  intros Hd _ _ Hop.
  assert (∀ tag op unit il el, operator_of tag = Some (op, unit) →
    fst <$> LabelledMaskFile_apply_conditions
              (LabelledMaskFile_obj suffix scope fnames tag il el) data mask_file
    = Return (where_ data (fold_labels op unit (default [] il) (default [] el)))) as Hfold.
  { clear -Hd. intros tag op unit il el Hop.
    unfold LabelledMaskFile_apply_conditions. run_result.
    rewrite (init_where _ _ op unit) by done. run_result.
    unfold fold_labels, np_eq, np_ne.
    destruct il as [il|]; run_result;
      rewrite ?(combine_masks_where tag _ _ _ _ op unit) by done; run_result;
      (destruct el as [el|]; run_result;
       rewrite ?(combine_masks_where tag _ _ _ _ op unit) by done; run_result; done). }
  split; [by apply Hfold|].
  rewrite (Hfold "or" orb false (Some [1; 2]%Z) None) by done.
  f_equal.
Qed.

(** ** Resampling *)

Lemma index_last_0_shape a n :
  last (shape a) = Some n → n ≠ 0 →
  ∃ a0, index_last_0 a = Return a0 ∧ shape a0 = removelast (shape a).
Proof.
  intros Hlast Hn. unfold index_last_0.
  destruct (shape a) as [|d s _] using rev_ind; [done|].
  rewrite last_snoc in Hlast. injection Hlast as ->.
  rewrite reverse_snoc, removelast_last.
  destruct (Nat.eqb_spec n 0) as [|_]; [done|].
  eexists. split; [done|]. simpl. apply reverse_involutive.
Qed.

Lemma dtype_of_astype `{Collaborators} a t : dtype_of (astype a t) = t.
Proof. unfold dtype_of, astype. simpl. by destruct t, (buf a). Qed.

(** C6 (amended): when the reference volume or its affine is absent, or the
    reference's shape with the last axis dropped equals the mask's shape,
    the resampling step returns the mask array unchanged and never calls
    the resample service; otherwise it returns the service's output,
    rounded and cast to the mask's dtype.  Either way it returns, and the
    returned array has the dtype of the input mask.  This holds whenever a
    reference volume that comes with its affine has a last axis with at
    least one entry; with the reference or the affine absent it holds for
    every input. *)
Theorem resample_mask_contract `{Collaborators} (mask_data : ndarray)
    (dwi_data : option ndarray) (mask_affine : Affine) (dwi_affine : option Affine) :
  (∀ d a, dwi_data = Some d → dwi_affine = Some a →
          ∃ n, last (shape d) = Some n ∧ n ≠ 0) →
  let r := _resample_mask mask_data dwi_data mask_affine dwi_affine in
  (dwi_data = None ∨ dwi_affine = None
   ∨ (∃ d, dwi_data = Some d ∧ removelast (shape d) = shape mask_data) →
   r = Run [resample_mask_called] (Return mask_data))
  ∧ (∀ d a, dwi_data = Some d → dwi_affine = Some a →
       removelast (shape d) ≠ shape mask_data →
       ∃ d0, index_last_0 d = Return d0
         ∧ let resampled := reg_resample (astype mask_data np_float64) d0 mask_affine a in
           r = Run [resample_mask_called; reg_resample_called]
                 (Return (astype (np_round resampled.1 resampled.2) (dtype_of mask_data))))
  ∧ ∃ out, outcome r = Return out ∧ dtype_of out = dtype_of mask_data.
Proof.
  intros Hlast r. subst r. unfold _resample_mask.
  destruct dwi_data as [d|]; [|by repeat split; [intros; done|eexists]].
  destruct dwi_affine as [a|];
    [|split; [done|]; split; [intros; done|by eexists]].
  destruct (Hlast d a eq_refl eq_refl) as (n & Hn & Hn0).
  destruct (index_last_0_shape d n Hn Hn0) as (d0 & Hi & Hd0). rewrite Hi.
  cbn [lift mbind M_bind outcome trace emit]. rewrite Hd0.
  destruct (decide (removelast (shape d) = shape mask_data)) as [E|E].
  - rewrite bool_decide_eq_false_2 by (intros Hne; exact (Hne E)). cbn.
    split; [done|]. split; [intros ?? [= <-] _ ?; done|by eexists].
  - rewrite bool_decide_eq_true_2 by done.
    destruct (reg_resample _ _ _ _) as [s l] eqn:Er. cbn.
    split; [intros [|[|(? & [= <-] & ?)]]; done|].
    split.
    + intros ?? [= <-] [= <-] _. exists d0. rewrite Er. by split.
    + eexists. split; [done|]. apply dtype_of_astype.
Qed.

(** C6 as stated fails on a reference volume, given with its affine, whose
    last axis is empty: its shape without the last axis is the mask's
    shape, yet [dwi_data[..., 0]] raises. *)
Lemma resample_mask_empty_reference_raises :
  let mask_data := NDArray [2] (IntBuf [1; 2]%Z) in
  let dwi_data := NDArray [2; 0] (FloatBuf []) in
  well_formed mask_data ∧ well_formed dwi_data
  ∧ removelast (shape dwi_data) = shape mask_data
  ∧ @_resample_mask sample_collaborators mask_data (Some dwi_data) identity_affine
      (Some identity_affine)
    = Run [resample_mask_called]
        (Raise (IndexError "index 0 is out of bounds for axis 1 with size 0")).
Proof. vm_compute. repeat split. Qed.

Lemma resample_mask_contract_witness :
  let mask_data := NDArray [2] (IntBuf [1; 2]%Z) in
  outcome (@_resample_mask sample_collaborators mask_data (Some sample_dwi)
             identity_affine (Some identity_affine))
  = Return (NDArray [2; 2] (IntBuf [1; 1; 1; 1]%Z)).
Proof.
  intros mask_data.
  destruct (resample_mask_contract (H := sample_collaborators) mask_data (Some sample_dwi)
              identity_affine (Some identity_affine)) as (_ & Hre & _).
  { intros d a [= <-] _. exists 3. by split. }
  destruct (Hre sample_dwi identity_affine eq_refl eq_refl) as (d0 & Hd0 & ->).
  { vm_compute. discriminate. }
  vm_compute in Hd0. injection Hd0 as <-. vm_compute. reflexivity.
Defined.

(** ** The path cache *)

Section path_cache.
Context `{Collaborators}.

Lemma file_backed_find_path m layout subject session :
  file_backed m = true →
  find_path m layout subject session = MaskFile_find_path m layout subject session.
Proof. by destruct m. Qed.

Lemma file_backed_get_mask m afq row :
  file_backed m = true → get_mask m afq row = MaskFile_get_mask m afq row.
Proof. by destruct m. Qed.

Lemma file_backed_get_path_data_affine m afq row :
  file_backed m = true →
  call_get_path_data_affine m afq row = MaskFile_get_path_data_affine m afq row.
Proof. by destruct m. Qed.

Lemma file_backed_attrs m :
  file_backed m = true →
  ∃ fnames suffix scope,
    get_fnames m = Return fnames ∧ get_suffix m = Return suffix
    ∧ get_scope m = Return scope.
Proof. destruct m; try done; intros _; by eexists _, _, _. Qed.

Lemma set_fnames_attrs m f :
  file_backed m = true →
  file_backed (set_fnames f m) = true
  ∧ get_fnames (set_fnames f m) = Return f
  ∧ get_suffix (set_fnames f m) = get_suffix m
  ∧ get_scope (set_fnames f m) = get_scope m.
Proof. by destruct m. Qed.

(** What one [find_path] call does to a file-backed mask: the cache entry
    of its own pair is set when the layout has a match and kept otherwise;
    every other entry is kept; suffix and scope are never touched. *)
Lemma find_path_effect m layout subject session suffix scope :
  file_backed m = true →
  get_suffix m = Return suffix → get_scope m = Return scope →
  let r := find_path m layout subject session in
  let found := layout_get layout subject session ".nii.gz" suffix "filename" scope in
  file_backed r.1 = true
  ∧ get_suffix r.1 = Return suffix ∧ get_scope r.1 = Return scope
  ∧ outcome r.2 = match found with
                  | [] => Raise (IndexError "list index out of range")
                  | _ :: _ => Return ()
                  end
  ∧ ∀ session' subject',
      cached r.1 session' subject'
      = match found with
        | fname :: _ =>
            if decide (session' = session ∧ subject' = subject) then Some fname
            else cached m session' subject'
        | [] => cached m session' subject'
        end.
Proof.
  intros Hm Hsu Hsc r found. subst r found.
  rewrite file_backed_find_path by done. unfold MaskFile_find_path.
  destruct (file_backed_attrs m Hm) as (fnames & su & sc & Hf & Hsu' & Hsc').
  rewrite Hsu in Hsu'. rewrite Hsc in Hsc'. injection Hsu' as <-. injection Hsc' as <-.
  rewrite Hf. cbv zeta.
  set (fnames1 := match fnames !! session with
                  | Some _ => fnames
                  | None => <[session:=∅]> fnames
                  end).
  destruct (set_fnames_attrs m fnames1 Hm) as (Hb1 & Hf1 & Hsu1 & Hsc1).
  rewrite Hsu1, Hsc1, Hsu, Hsc.
  assert (∀ s' j', (fnames1 !! s' ≫= fun d => d !! j') = cached m s' j') as Hsame.
  { intros s' j'. unfold cached. rewrite Hf. subst fnames1.
    destruct (fnames !! session) eqn:E; [done|].
    destruct (decide (s' = session)) as [->|Hne].
    - by rewrite lookup_insert_eq, E.
    - by rewrite lookup_insert_ne. }
  assert (is_Some (fnames1 !! session)) as [of_session Hof].
  { subst fnames1. destruct (fnames !! session) eqn:E; [by rewrite E|].
    by rewrite lookup_insert_eq. }
  destruct (layout_get _ _ _ _ _ _) as [|fname rest]; cbn [fst snd outcome].
  - repeat split; try done; try congruence.
    intros s' j'. unfold cached at 1. rewrite Hf1. apply Hsame.
  - rewrite Hof. cbn [fst snd outcome].
    destruct (set_fnames_attrs (set_fnames fnames1 m)
                (<[session:=<[subject:=fname]> of_session]> fnames1) Hb1)
      as (Hb2 & Hf2 & Hsu2 & Hsc2).
    repeat split; try done; try congruence.
    intros s' j'. unfold cached at 1. rewrite Hf2.
    destruct (decide (s' = session ∧ j' = subject)) as [[-> ->]|Hne].
    + rewrite lookup_insert_eq. cbn. by rewrite lookup_insert_eq.
    + rewrite <- Hsame. destruct (decide (s' = session)) as [->|Hs].
      * rewrite lookup_insert_eq, Hof. cbn. rewrite lookup_insert_ne; [done|].
        intros ->. by apply Hne.
      * by rewrite lookup_insert_ne.
Qed.

Lemma after_find_paths_effect m calls suffix scope :
  file_backed m = true →
  get_suffix m = Return suffix → get_scope m = Return scope →
  file_backed (after_find_paths m calls) = true
  ∧ get_suffix (after_find_paths m calls) = Return suffix
  ∧ get_scope (after_find_paths m calls) = Return scope
  ∧ ∀ session subject,
      (is_Some (cached m session subject) →
       is_Some (cached (after_find_paths m calls) session subject))
      ∧ ((∀ c, c ∈ calls → (c.1.2, c.2) ≠ (subject, session)) →
         cached (after_find_paths m calls) session subject = cached m session subject).
Proof.
  revert m. induction calls as [|[[layout j] s] calls IH]; intros m Hm Hsu Hsc.
  { by repeat split. }
  destruct (find_path_effect m layout j s suffix scope Hm Hsu Hsc)
    as (Hm1 & Hsu1 & Hsc1 & _ & Hc).
  destruct (IH _ Hm1 Hsu1 Hsc1) as (Hm2 & Hsu2 & Hsc2 & Hc2).
  unfold after_find_paths in *. cbn [foldl fst snd].
  split; [done|]. split; [done|]. split; [done|].
  intros session' subject'. split.
  - intros Hsome. apply Hc2. rewrite Hc.
    destruct (layout_get _ _ _ _ _ _); [done|]. by case_decide.
  - intros Hno. destruct (Hc2 session' subject') as [_ ->].
    + rewrite Hc. destruct (layout_get _ _ _ _ _ _); [done|].
      case_decide as E; [|done]. destruct E as [-> ->].
      by destruct (Hno (layout, j, s)); [left|].
    + intros c Hin. apply Hno. by right.
Qed.

Lemma get_path_data_affine_miss m afq row :
  file_backed m = true → cached m (ses row) (subject row) = None →
  ∃ key, MaskFile_get_path_data_affine m afq row = Run [] (Raise (KeyError key)).
Proof.
  intros Hm. destruct (file_backed_attrs m Hm) as (fnames & su & sc & Hf & _).
  unfold cached, MaskFile_get_path_data_affine. rewrite Hf.
  cbn [lift mbind M_bind outcome trace].
  destruct (fnames !! ses row) as [d|]; cbn; [|intros _; by eexists].
  intros ->. by eexists.
Qed.

Lemma get_path_data_affine_hit m afq row fname :
  cached m (ses row) (subject row) = Some fname →
  MaskFile_get_path_data_affine m afq row
  = Run [nib_load_called fname]
      (Return (fname, get_fdata (nib_load fname), affine (nib_load fname))).
Proof.
  unfold cached, MaskFile_get_path_data_affine.
  destruct (get_fnames m) as [fnames|]; [|done].
  cbn [lift mbind M_bind outcome trace].
  destruct (fnames !! ses row) as [d|]; cbn; [|done]. by intros ->.
Qed.

(** Past the cache lookup nothing in [get_mask] raises a [KeyError]. *)
Lemma combine_mask_no_key_error c other e :
  (_MaskCombiner.combine_mask c other).2 = Raise e → is_key_error e = false.
Proof.
  unfold _MaskCombiner.combine_mask, np_logical_or, np_logical_and, np_logical,
    _MaskCombiner.combine_illdefined.
  repeat case_match; cbn; intros ?; by simplify_eq.
Qed.

Lemma combine_masks_no_key_error c others e :
  (_MaskCombiner.combine_masks c others).2 = Raise e → is_key_error e = false.
Proof.
  revert c. induction others as [|o others IH]; intros c; [done|].
  cbn [_MaskCombiner.combine_masks].
  destruct (_MaskCombiner.combine_mask c o) as [c' [[]|e']] eqn:E.
  - apply IH.
  - cbn. intros [= <-]. apply (combine_mask_no_key_error c o). by rewrite E.
Qed.

Lemma init_no_key_error S tag e :
  _MaskCombiner.__init__ S tag = Raise e → is_key_error e = false.
Proof.
  unfold _MaskCombiner.__init__, _MaskCombiner.combine_illdefined.
  repeat case_match; intros ?; by simplify_eq.
Qed.

Lemma apply_conditions_no_key_error m data mask_file e :
  file_backed m = true →
  call_apply_conditions m data mask_file = Raise e → is_key_error e = false.
Proof.
  destruct m as [| |su sc f c il el|su sc f c lb ub| | |]; try done; intros _.
  - change (call_apply_conditions ?m data mask_file)
      with (LabelledMaskFile_apply_conditions m data mask_file).
    unfold LabelledMaskFile_apply_conditions. run_result.
    destruct (_MaskCombiner.__init__ (shape data) c) as [c0|e0] eqn:E0; run_result;
      [|intros [= <-]; by eapply init_no_key_error].
    assert (∀ (c1 : _MaskCombiner.t) (others : list ndarray)
              (k : _MaskCombiner.t → result (ndarray * meta)),
              (∀ c2, k c2 = Raise e → is_key_error e = false) →
              (let '(mask, r) := _MaskCombiner.combine_masks c1 others in
               r;; Return mask) ≫= k = Raise e → is_key_error e = false) as Hstep.
    { intros c1 others k Hk.
      destruct (_MaskCombiner.combine_masks c1 others) as [c2 [[]|e2]] eqn:E2;
        run_result; [apply Hk|].
      intros [= <-]. apply (combine_masks_no_key_error c1 others). by rewrite E2. }
    destruct il as [il|]; run_result.
    + apply Hstep. intros c2. destruct el as [el|]; run_result; [|done].
      apply Hstep. done.
    + destruct el as [el|]; run_result; [|done]. apply Hstep. done.
  - change (call_apply_conditions ?m data mask_file)
      with (ThresholdedMaskFile_apply_conditions m data mask_file).
    unfold ThresholdedMaskFile_apply_conditions. run_result.
    destruct (_MaskCombiner.__init__ (shape data) c) as [c0|e0] eqn:E0; run_result;
      [|intros [= <-]; by eapply init_no_key_error].
    assert (∀ (c1 : _MaskCombiner.t) (other : ndarray)
              (k : _MaskCombiner.t → result (ndarray * meta)),
              (∀ c2, k c2 = Raise e → is_key_error e = false) →
              (let '(mask, r) := _MaskCombiner.combine_mask c1 other in
               r;; Return mask) ≫= k = Raise e → is_key_error e = false) as Hstep.
    { intros c1 other k Hk.
      destruct (_MaskCombiner.combine_mask c1 other) as [c2 [[]|e2]] eqn:E2;
        run_result; [apply Hk|].
      intros [= <-]. apply (combine_mask_no_key_error c1 other). by rewrite E2. }
    destruct ub as [ub|]; run_result.
    + apply Hstep. intros c2. destruct lb as [lb|]; run_result; [|done].
      apply Hstep. done.
    + destruct lb as [lb|]; run_result; [|done]. apply Hstep. done.
Qed.

Lemma resample_mask_no_key_error mask_data dwi_data mask_affine dwi_affine e :
  outcome (_resample_mask mask_data dwi_data mask_affine dwi_affine) = Raise e →
  is_key_error e = false.
Proof.
  unfold _resample_mask, index_last_0.
  destruct dwi_data as [d|], dwi_affine as [a|]; try done.
  cbn [mbind M_bind emit outcome trace lift].
  repeat case_match; cbn; intros ?; by simplify_eq.
Qed.

Lemma get_mask_miss m afq row :
  file_backed m = true → cached m (ses row) (subject row) = None →
  ∃ key, get_mask m afq row = Run [get_data_gtab_called row] (Raise (KeyError key)).
Proof.
  intros Hm Hc. rewrite file_backed_get_mask by done. unfold MaskFile_get_mask.
  destruct (_get_data_gtab afq row) as [[dwi_data gtab] dwi_img].
  rewrite file_backed_get_path_data_affine by done.
  destruct (get_path_data_affine_miss m afq row Hm Hc) as [key ->].
  by exists key.
Qed.

Lemma get_mask_hit m afq row fname :
  file_backed m = true → cached m (ses row) (subject row) = Some fname →
  (∃ rest, trace (get_mask m afq row)
           = get_data_gtab_called row :: nib_load_called fname :: rest)
  ∧ ∀ e, outcome (get_mask m afq row) = Raise e → is_key_error e = false.
Proof.
  intros Hm Hc. rewrite file_backed_get_mask by done. unfold MaskFile_get_mask.
  destruct (_get_data_gtab afq row) as [[dwi_data gtab] dwi_img].
  rewrite file_backed_get_path_data_affine by done.
  rewrite (get_path_data_affine_hit m afq row fname Hc).
  cbn [mbind M_bind emit outcome trace lift app].
  destruct (call_apply_conditions m _ fname) as [[mask_data meta]|e0] eqn:E0;
    cbn [mbind M_bind emit outcome trace lift app].
  - destruct (_resample_mask mask_data _ _ _) as [tr [out|e1]] eqn:E1;
      cbn [mbind M_bind mret M_ret emit outcome trace lift app].
    + split; [by eexists|done].
    + split; [by eexists|]. intros e [= <-].
      eapply resample_mask_no_key_error. by rewrite E1.
  - split; [by eexists|]. intros e [= <-].
    by eapply apply_conditions_no_key_error.
Qed.

(** C8: on a file-backed mask built by its constructor, after any history
    of [find_path] calls none of which was for the row's (subject,
    session) pair, [get_mask] raises a lookup error (a [KeyError]) before
    anything is loaded and returns no mask; once a [find_path] call for
    the pair has returned, whatever calls follow, [get_mask] reads a
    cached path, loads it and raises no [KeyError], and the path is the
    one that call cached when no later call was for the same pair. *)
Theorem get_mask_needs_find_path (self : Mask)
    (calls : list (BIDSLayout * string * string)) (afq : AFQ) (row : Row) :
  file_backed self = true →
  get_fnames self = Return ∅ →
  let m := after_find_paths self calls in
  ((∀ c, c ∈ calls → (c.1.2, c.2) ≠ (subject row, ses row)) →
     ∃ key, get_mask m afq row
              = Run [get_data_gtab_called row] (Raise (KeyError key))
            ∧ is_lookup_error (KeyError key) = true)
  ∧ (∀ before layout after,
       calls = before ++ (layout, subject row, ses row) :: after →
       outcome (find_path (after_find_paths self before) layout
                  (subject row) (ses row)).2 = Return () →
       ∃ fname rest,
         cached m (ses row) (subject row) = Some fname
         ∧ call_get_path_data_affine m afq row
           = Run [nib_load_called fname]
               (Return (fname, get_fdata (nib_load fname), affine (nib_load fname)))
         ∧ trace (get_mask m afq row)
           = get_data_gtab_called row :: nib_load_called fname :: rest
         ∧ (∀ e, outcome (get_mask m afq row) = Raise e → is_key_error e = false)
         ∧ ((∀ c, c ∈ after → (c.1.2, c.2) ≠ (subject row, ses row)) →
            ∀ suffix scope,
              get_suffix self = Return suffix → get_scope self = Return scope →
              head (layout_get layout (subject row) (ses row) ".nii.gz" suffix
                      "filename" scope) = Some fname)).
Proof.
  intros Hself Hfresh m.
  destruct (file_backed_attrs self Hself) as (f0 & su & sc & Hf0 & Hsu & Hsc).
  assert (∀ s j, cached self s j = None) as Hempty.
  { intros s j. unfold cached. by rewrite Hfresh, lookup_empty. }
  split.
  - intros Hno. subst m.
    destruct (after_find_paths_effect self calls su sc Hself Hsu Hsc)
      as (Hm & _ & _ & Hc).
    destruct (Hc (ses row) (subject row)) as [_ Hkeep].
    destruct (get_mask_miss _ afq row Hm) as [key Hkey];
      [by rewrite Hkeep, Hempty|].
    by exists key.
  - intros before layout after -> Hok.
    destruct (after_find_paths_effect self before su sc Hself Hsu Hsc)
      as (Hm1 & Hsu1 & Hsc1 & _).
    destruct (find_path_effect (after_find_paths self before) layout
                (subject row) (ses row) su sc Hm1 Hsu1 Hsc1)
      as (Hm2 & Hsu2 & Hsc2 & Hout & Hc2).
    rewrite Hok in Hout. specialize (Hc2 (ses row) (subject row)).
    destruct (layout_get layout (subject row) (ses row) ".nii.gz" su "filename" sc)
      as [|found more] eqn:Hget; [done|].
    rewrite decide_True in Hc2 by done.
    destruct (after_find_paths_effect _ after su sc Hm2 Hsu2 Hsc2)
      as (Hm3 & _ & _ & Hc3).
    assert (m = after_find_paths
                  (find_path (after_find_paths self before) layout
                     (subject row) (ses row)).1 after) as Em.
    { subst m. unfold after_find_paths. by rewrite foldl_app. }
    rewrite <- Em in Hm3, Hc3.
    destruct (Hc3 (ses row) (subject row)) as [Hmono Hkeep].
    destruct Hmono as [fname Hfname]; [by rewrite Hc2|].
    destruct (get_mask_hit m afq row fname Hm3 Hfname) as [[rest Htr] Herr].
    exists fname, rest. split; [done|]. split.
    { rewrite file_backed_get_path_data_affine by done.
      by apply get_path_data_affine_hit. }
    split; [done|]. split; [done|].
    intros Hno suffix scope Hsu' Hsc'.
    rewrite Hsu in Hsu'. rewrite Hsc in Hsc'. injection Hsu' as <-. injection Hsc' as <-.
    rewrite Hget. cbn. rewrite Hkeep, Hc2 in Hfname by done. done.
Qed.
End path_cache.

Lemma get_mask_needs_find_path_witness :
  let self := MaskFile__init__ "mask" None in
  (∃ key, @get_mask sample_collaborators self sample_afq sample_row
          = Run [get_data_gtab_called sample_row] (Raise (KeyError key)))
  ∧ ∃ fname,
      cached (@after_find_paths sample_collaborators self [(sample_layout, "A", "01")])
        "01" "A" = Some fname.
Proof.
  intros self.
  destruct (get_mask_needs_find_path (H := sample_collaborators) self []
              sample_afq sample_row eq_refl eq_refl) as [Hmiss _].
  destruct (get_mask_needs_find_path (H := sample_collaborators) self
              [(sample_layout, "A", "01")] sample_afq sample_row eq_refl eq_refl)
    as [_ Hhit].
  split.
  - destruct Hmiss as (key & Hkey & _); [by intros c Hc; inversion Hc|].
    by exists key.
  - destruct (Hhit [] sample_layout [] eq_refl) as (fname & rest & Hc & _);
      [by vm_compute|].
    by exists fname.
Defined.

(** ** Composite masks *)

Lemma resolve_combine_mask (m : Mask) : resolve (type_of m) "combine_mask" = None.
Proof. by destruct m. Qed.

(** C10: for every row, [FullMask.get_mask] returns an array of ones, of
    float64 dtype, whose shape is the whole shape of the diffusion data
    (last axis included), with metadata exactly {source: "Entire Volume"};
    the only collaborator call is the one fetching the diffusion data, so
    the resampling step is never entered. *)
Theorem full_mask_covers_dwi_shape `{Collaborators} (afq : AFQ) (row : Row) :
  let dwi_data := (_get_data_gtab afq row).1.1 in
  let ones := NDArray (shape dwi_data)
                (FloatBuf (replicate (numel (shape dwi_data)) 1%float)) in
  get_mask FullMask__init__ afq row
    = Run [get_data_gtab_called row] (Return (ones, [("source", PStr "Entire Volume")]))
  ∧ dtype_of ones = np_float64
  ∧ resample_mask_called ∉ trace (get_mask FullMask__init__ afq row).
Proof.
  intros dwi_data ones. subst dwi_data ones.
  assert (get_mask FullMask__init__ afq row = FullMask_get_mask FullMask__init__ afq row)
    as -> by done.
  unfold FullMask_get_mask.
  destruct (_get_data_gtab afq row) as [[dwi_data gtab] dwi_img]. cbn.
  split; [done|]. split; [done|].
  by intros [=]%list_elem_of_singleton.
Qed.

(** C9: for every scalar name, bounds, operator and row,
    [ThresholdedScalarMask.get_mask] is the composite of the spec: the
    threshold condition logic of ThresholdedMaskFile applied to the data
    that ScalarMask's source resolution yields, then resampled; and its
    [find_path] changes nothing and calls nothing. *)
Theorem thresholded_scalar_mask_composes `{Collaborators} (scalar combine : string)
    (lower_bound upper_bound : option float) (suffix : string) (scope : option string)
    (fnames : gmap string (gmap string string)) (afq : AFQ) (row : Row)
    (bids_layout : BIDSLayout) (subject session : string) :
  let self := ThresholdedScalarMask__init__ scalar lower_bound upper_bound combine in
  get_mask self afq row
    = ThresholdedScalarMask_composed
        (ScalarMask__init__ scalar)
        (ThresholdedMaskFile_obj suffix scope fnames combine lower_bound upper_bound)
        afq row
  ∧ find_path self bids_layout subject session = (self, Run [] (Return ())).
Proof. by split. Qed.

(** With at least one child, [CombinedMask.get_mask] never returns: the
    loop variable is the local that was to hold the combiner, so after the
    first child's own [get_mask] the call [mask.combine_mask] is looked up
    on that child. *)
Lemma combined_mask_get_mask_raises `{Collaborators} (child : Mask) (rest : list Mask)
    (combine : string) (afq : AFQ) (row : Row) :
  get_mask (CombinedMask__init__ (child :: rest) combine) afq row
    = Run (trace (get_mask child afq row))
        match outcome (get_mask child afq row) with
        | Return _ => Raise (AttributeError (class_name (type_of child)) "combine_mask")
        | Raise e => Raise e
        end.
Proof.
  assert (get_mask (CombinedMask__init__ (child :: rest) combine) afq row
          = ('(mask, metas) ←
               CombinedMask_get_mask_loop (fun c => get_mask c afq row) combine
                 (child :: rest) PyNone [];
             mask_data ← lift (py_mask mask);
             mret (mask_data, [("sources", PList (PDict <$> metas));
                               ("combined_with", PStr combine)]))) as -> by done.
  cbn [CombinedMask_get_mask_loop py_get_mask is_None py_combine_mask].
  destruct (get_mask child afq row) as [tr [[next_mask next_meta]|e]]; cbn.
  - by rewrite !app_nil_r.
  - done.
Qed.

(** C1, on the example of the class docstring: each child returns its own
    bool mask, yet the combined mask raises instead of returning their
    elementwise AND with the two metadata records. *)
Theorem combined_mask_docstring_example :
  let fa := ThresholdedScalarMask__init__ "dti_fa" (Some 0.2%float) None "and" in
  let md := ThresholdedScalarMask__init__ "dti_md" None (Some 0.002%float) "and" in
  fst <$> outcome (@get_mask sample_collaborators fa sample_afq sample_row)
    = Return (NDArray [2; 2] (BoolBuf [false; true; true; true]))
  ∧ fst <$> outcome (@get_mask sample_collaborators md sample_afq sample_row)
    = Return (NDArray [2; 2] (BoolBuf [false; false; false; false]))
  ∧ outcome (@get_mask sample_collaborators (CombinedMask__init__ [fa; md] "and")
               sample_afq sample_row)
    = Raise (AttributeError "ThresholdedScalarMask" "combine_mask").
Proof. vm_compute. repeat split. Qed.

(** C2 (amended): with an empty child list [get_mask] returns no mask: it
    raises the [AttributeError] of reading [.mask] on the [None] that was to
    become the combiner, calling nothing; that error is not a configuration
    error. *)
Theorem combined_mask_empty_raises `{Collaborators} (combine : string) (afq : AFQ)
    (row : Row) :
  get_mask (CombinedMask__init__ [] combine) afq row
    = Run [] (Raise (AttributeError "NoneType" "mask"))
  ∧ is_configuration_error (AttributeError "NoneType" "mask") = false.
Proof. by split. Qed.

(** C2 as stated fails: the error raised on an empty child list is no
    configuration error. *)
Lemma combined_mask_empty_not_configuration_error :
  outcome (@get_mask sample_collaborators (CombinedMask__init__ [] "and")
             sample_afq sample_row)
    = Raise (AttributeError "NoneType" "mask")
  ∧ is_configuration_error (AttributeError "NoneType" "mask") = false
  ∧ ¬ ∃ e, outcome (@get_mask sample_collaborators (CombinedMask__init__ [] "and")
                      sample_afq sample_row) = Raise e
           ∧ is_configuration_error e = true.
Proof.
  split; [by vm_compute|]. split; [done|].
  intros (e & He & Hc). vm_compute in He. injection He as <-. done.
Qed.

(** ** Witnesses *)

Lemma thresholds_select_open_interval_witness :
  fst <$> ThresholdedMaskFile_apply_conditions
            (ThresholdedMaskFile__init__ "mask" None (Some 0.1%float) (Some 0.8%float)
               "and") sample_volume "mask.nii.gz"
  = Return (NDArray [2; 2] (BoolBuf [false; true; false; false])).
Proof.
  destruct (thresholds_select_open_interval "mask" None ∅ sample_volume "mask.nii.gz"
              0.1%float 0.8%float) as [E _]; [by split|].
  unfold ThresholdedMaskFile__init__. rewrite E. vm_compute. reflexivity.
Defined.

Lemma labels_fold_under_operator_witness :
  fst <$> LabelledMaskFile_apply_conditions
            (LabelledMaskFile__init__ "aseg" None (Some [1; 2]%Z) None "or")
            sample_labels "aseg.nii.gz"
  = Return (NDArray [4] (BoolBuf [false; true; true; false])).
Proof.
  destruct (labels_fold_under_operator "aseg" None ∅ sample_labels "aseg.nii.gz"
              "or" orb false (Some [1; 2]%Z) None) as [E _];
    [by split|reflexivity..|].
  unfold LabelledMaskFile__init__. rewrite E. vm_compute. reflexivity.
Defined.

Lemma combiner_tag_check_witness :
  _MaskCombiner.__init__ [2] "xor"
    = Raise (TypeError "combine should be either 'or' or 'and', you set combine to xor")
  ∧ ∃ c, _MaskCombiner.__init__ [2] "and" = Return c.
Proof.
  split.
  - destruct (combiner_tag_check "xor") as [Hbad _].
    destruct Hbad as (_ & Hinit & _); [done..|]. apply Hinit.
  - destruct (combiner_tag_check "and") as [_ Hok].
    destruct Hok as (Hinit & _); [by left|].
    destruct (Hinit [2]) as (c & Hc & _). by exists c.
Defined.

(** * Further properties of the module *)

(** ** The capability check *)

(** X1: every mask object of the module passes [check_mask_methods], with
    or without a name to report: each class finds [find_path] and [get_mask]
    somewhere in its MRO.  [None] and a [_MaskCombiner] fail it on
    [find_path]: [False] without a name, a [TypeError] naming the method
    and the mask with one. *)
Theorem check_mask_methods_accepts_module_masks (m : Mask) (c : _MaskCombiner.t)
    (mask_name : option string) (name : string) :
  check_mask_methods (PyMask m) mask_name = Return true
  ∧ check_mask_methods PyNone None = Return false
  ∧ check_mask_methods (PyCombiner c) None = Return false
  ∧ check_mask_methods PyNone (Some name)
    = Raise (TypeError ("find_path method not found in " +:+ name))
  ∧ check_mask_methods (PyCombiner c) (Some name)
    = Raise (TypeError ("find_path method not found in " +:+ name)).
Proof.
  split; [|by repeat split].
  unfold check_mask_methods, hasattr.
  assert (resolve (type_of m) "find_path" ≠ None ∧ resolve (type_of m) "get_mask" ≠ None)
    as [Hf Hg] by (by destruct m).
  rewrite !(bool_decide_eq_true_2 (is_Some _)) by (by apply not_eq_None_Some).
  by rewrite !orb_true_r.
Qed.

(** ** Scalar sources *)

Lemma dict_get_elem {A} (d : list (string * A)) (key : string) :
  key ∈ d.*1 → ∃ v, dict_get d key = Return v ∧ (key, v) ∈ d.
Proof.
  induction d as [|[k v] d IH]; [by intros ?%elem_of_nil|].
  cbn [fmap list_fmap fst dict_get]. intros Hin.
  destruct (String.eqb_spec k key) as [->|Hne].
  - exists v. split; [done|]. by left.
  - apply elem_of_cons in Hin as [->|Hin]; [done|].
    destruct (IH Hin) as (v' & -> & Hv'). exists v'. split; [done|]. by right.
Qed.

(** X2: [ScalarMask.get_path_data_affine] checks the scalar name before
    anything else.  A name outside [afq._scalar_dict] raises the
    [RuntimeError] that lists the valid names in dict order, with no scalar
    computed and no file loaded; a name inside it never fails the dict
    lookup: the scalar's function is called once and its file loaded. *)
Theorem scalar_name_is_checked_before_use `{Collaborators} (self : Mask)
    (scalar_name : string) (afq : AFQ) (row : Row) :
  get_scalar_name self = Return scalar_name →
  (scalar_name ∉ (_scalar_dict afq).*1 →
   ScalarMask_get_path_data_affine self afq row
   = Run [] (Raise (RuntimeError ("scalar should be one of "
                                    +:+ join ", " (_scalar_dict afq).*1
                                    +:+ ", you input " +:+ scalar_name))))
  ∧ (scalar_name ∈ (_scalar_dict afq).*1 →
     ∃ scalar_fn,
       (scalar_name, scalar_fn) ∈ _scalar_dict afq
       ∧ ScalarMask_get_path_data_affine self afq row
         = Run [scalar_called scalar_name row; nib_load_called (scalar_fn row)]
             (Return (scalar_fn row, get_fdata (nib_load (scalar_fn row)),
                      affine (nib_load (scalar_fn row))))).
Proof.
  intros Hn. unfold ScalarMask_get_path_data_affine. rewrite Hn.
  cbn [lift mbind M_bind outcome trace]. split.
  - intros Hnot. by rewrite bool_decide_eq_true_2.
  - intros Hin. rewrite bool_decide_eq_false_2 by (intros Hnot; exact (Hnot Hin)).
    destruct (dict_get_elem _ _ Hin) as (f & Hf & Hmem).
    exists f. split; [done|]. rewrite Hf. done.
Qed.

Lemma scalar_name_is_checked_before_use_witness :
  outcome (@ScalarMask_get_path_data_affine sample_collaborators
             (ScalarMask__init__ "dti_xx") sample_afq sample_row)
  = Raise (RuntimeError "scalar should be one of dti_fa, dti_md, you input dti_xx").
Proof.
  destruct (scalar_name_is_checked_before_use (H := sample_collaborators)
              (ScalarMask__init__ "dti_xx") "dti_xx" sample_afq sample_row eq_refl)
    as [Hbad _].
  rewrite Hbad; [reflexivity|]. vm_compute. intros Hin.
  repeat (apply elem_of_cons in Hin as [Hin|Hin]; [discriminate|]).
  by apply elem_of_nil in Hin.
Defined.

(** ** Combining same-shape bool masks *)

Lemma np_logical_bool_same op S l k :
  length l = numel S → length k = numel S →
  np_logical op (NDArray S (BoolBuf l)) (NDArray S (BoolBuf k))
  = Return (NDArray S (BoolBuf (zip_with op l k))).
Proof.
  intros Hl Hk. unfold np_logical. cbn [shape buf].
  by rewrite broadcast_shapes_same, !truth_bool, !broadcast_to_same.
Qed.

Lemma combine_mask_bool_same tag op unit S l k :
  operator_of tag = Some (op, unit) → length l = numel S → length k = numel S →
  _MaskCombiner.combine_mask (_MaskCombiner.Build tag (NDArray S (BoolBuf l)))
    (NDArray S (BoolBuf k))
  = (_MaskCombiner.Build tag (NDArray S (BoolBuf (zip_with op l k))), Return ()).
Proof.
  intros Hop Hl Hk. rewrite (combine_mask_operator _ _ op unit) by done.
  cbn [_MaskCombiner.mask _MaskCombiner.combine].
  by rewrite np_logical_bool_same.
Qed.

Lemma fmap_bool_id (f : bool → bool) (l : list bool) :
  (∀ b, f b = b) → f <$> l = l.
Proof.
  intros Hf. rewrite <- (list_fmap_id l) at 2. apply list_fmap_ext. intros ? b _. apply Hf.
Qed.

(** X8: on a running bool mask of the combiner's shape, folding the
    all-false array into an "or" combiner, the all-true array into an "and"
    combiner, or the running mask itself into either, returns and leaves
    the combiner as it was. *)
Theorem combine_mask_identity_and_idempotence (S : list nat) (l : list bool) :
  length l = numel S →
  let running tag := _MaskCombiner.Build tag (NDArray S (BoolBuf l)) in
  _MaskCombiner.combine_mask (running "or") (np_zeros_bool S) = (running "or", Return ())
  ∧ _MaskCombiner.combine_mask (running "and") (np_ones_bool S)
    = (running "and", Return ())
  ∧ _MaskCombiner.combine_mask (running "or") (NDArray S (BoolBuf l))
    = (running "or", Return ())
  ∧ _MaskCombiner.combine_mask (running "and") (NDArray S (BoolBuf l))
    = (running "and", Return ()).
Proof.
  intros Hl running. subst running. cbv beta. unfold np_zeros_bool, np_ones_bool.
  repeat split.
  - rewrite (combine_mask_bool_same _ orb false) by (done || by rewrite length_replicate).
    rewrite zip_with_replicate_r_eq by done. do 4 f_equal.
    apply fmap_bool_id, orb_false_r.
  - rewrite (combine_mask_bool_same _ andb true) by (done || by rewrite length_replicate).
    rewrite zip_with_replicate_r_eq by done. do 4 f_equal.
    apply fmap_bool_id, andb_true_r.
  - rewrite (combine_mask_bool_same _ orb false) by done.
    rewrite zip_with_diag. do 4 f_equal. apply fmap_bool_id, orb_diag.
  - rewrite (combine_mask_bool_same _ andb true) by done.
    rewrite zip_with_diag. do 4 f_equal. apply fmap_bool_id, andb_diag.
Qed.

Lemma combine_mask_identity_and_idempotence_witness :
  _MaskCombiner.combine_mask
    (_MaskCombiner.Build "or" (NDArray [2] (BoolBuf [true; false]))) (np_zeros_bool [2])
  = (_MaskCombiner.Build "or" (NDArray [2] (BoolBuf [true; false])), Return ()).
Proof.
  by destruct (combine_mask_identity_and_idempotence [2] [true; false] eq_refl) as [E _].
Defined.

(** ** More on condition application *)

Lemma labelled_apply_where suffix scope fnames tag op unit il el data mask_file :
  well_formed data → operator_of tag = Some (op, unit) →
  fst <$> LabelledMaskFile_apply_conditions
            (LabelledMaskFile_obj suffix scope fnames tag il el) data mask_file
  = Return (where_ data (fold_labels op unit (default [] il) (default [] el))).
Proof.
  intros Hd Hop. unfold LabelledMaskFile_apply_conditions. run_result.
  rewrite (init_where _ _ op unit) by done. run_result.
  unfold fold_labels, np_eq, np_ne.
  destruct il as [il|]; run_result;
    rewrite ?(combine_masks_where tag _ _ _ _ op unit) by done; run_result;
    (destruct el as [el|]; run_result;
     rewrite ?(combine_masks_where tag _ _ _ _ op unit) by done; run_result; done).
Qed.

Lemma foldl_orb_existsb {X} (p : X → bool) (xs : list X) (b : bool) :
  foldl (fun acc x => acc || p x) b xs = b || existsb p xs.
Proof.
  revert b. induction xs as [|x xs IH]; intros b; cbn; [by rewrite orb_false_r|].
  by rewrite IH, orb_assoc.
Qed.

Lemma foldl_andb_forallb {X} (p : X → bool) (xs : list X) (b : bool) :
  foldl (fun acc x => acc && p x) b xs = b && forallb p xs.
Proof.
  revert b. induction xs as [|x xs IH]; intros b; cbn; [by rewrite andb_true_r|].
  by rewrite IH, andb_assoc.
Qed.

(** X14: label conditions in closed form.  Under "or" a position is kept
    when its value equals some inclusive label or differs from some
    exclusive label; under "and" when it equals every inclusive label and
    differs from every exclusive label.  (So two distinct exclusive labels
    under "or" keep every position.)  For every array and all labels in the
    range of an int64. *)
Theorem labels_select_any_or_all (suffix : string) (scope : option string)
    (fnames : gmap string (gmap string string)) (data : ndarray) (mask_file : string)
    (inclusive_labels exclusive_labels : option (list Z)) :
  well_formed data →
  forallb is_int64 (default [] inclusive_labels) = true →
  forallb is_int64 (default [] exclusive_labels) = true →
  let apply tag :=
    fst <$> LabelledMaskFile_apply_conditions
              (LabelledMaskFile_obj suffix scope fnames tag
                 inclusive_labels exclusive_labels) data mask_file in
  let inclusive := default [] inclusive_labels in
  let exclusive := default [] exclusive_labels in
  apply "or"
    = Return (where_ data (fun v => existsb (eq_int v) inclusive
                                    || existsb (ne_int v) exclusive))
  ∧ apply "and"
    = Return (where_ data (fun v => forallb (eq_int v) inclusive
                                    && forallb (ne_int v) exclusive)).
Proof.
  intros Hd _ _ apply inclusive exclusive. subst apply inclusive exclusive. cbv beta.
  rewrite (labelled_apply_where _ _ _ "or" orb false) by done.
  rewrite (labelled_apply_where _ _ _ "and" andb true) by done.
  split; f_equal; apply where_ext; intros v; unfold fold_labels.
  - by rewrite !foldl_orb_existsb.
  - by rewrite !foldl_andb_forallb.
Qed.

Lemma labels_select_any_or_all_witness :
  fst <$> LabelledMaskFile_apply_conditions
            (LabelledMaskFile__init__ "aseg" None None (Some [0; 1]%Z) "or")
            sample_labels "aseg.nii.gz"
  = Return (NDArray [4] (BoolBuf [true; true; true; true])).
Proof.
  destruct (labels_select_any_or_all "aseg" None ∅ sample_labels "aseg.nii.gz"
              None (Some [0; 1]%Z)) as [E _]; [by split|reflexivity..|].
  unfold LabelledMaskFile__init__. rewrite E. vm_compute. reflexivity.
Defined.

(** X9: with operator "or" and both bounds set, thresholding keeps the
    positions whose value is below the upper bound or above the lower
    bound.  For every array: as many elements as its shape says, int64
    elements in the range of an int64. *)
Theorem thresholds_or_select_union (suffix : string) (scope : option string)
    (fnames : gmap string (gmap string string)) (data : ndarray) (mask_file : string)
    (lower_bound upper_bound : float) :
  well_formed data →
  fst <$> ThresholdedMaskFile_apply_conditions
            (ThresholdedMaskFile_obj suffix scope fnames "or"
               (Some lower_bound) (Some upper_bound)) data mask_file
  = Return (where_ data (fun v => PrimFloat.ltb (to_float v) upper_bound
                                  || PrimFloat.ltb lower_bound (to_float v))).
Proof.
  intros Hd. unfold ThresholdedMaskFile_apply_conditions. run_result.
  rewrite init_or_where by done. run_result.
  change (np_lt data upper_bound) with (where_ data (fun v => lt_float v upper_bound)).
  change (np_gt data lower_bound) with (where_ data (fun v => gt_float v lower_bound)).
  rewrite !(combine_mask_where "or" _ _ _ orb false) by done. run_result.
  rewrite !(combine_mask_where "or" _ _ _ orb false) by done. run_result.
  f_equal.
Qed.

Lemma thresholds_or_select_union_witness :
  fst <$> ThresholdedMaskFile_apply_conditions
            (ThresholdedMaskFile__init__ "mask" None (Some 0.8%float) (Some 0.1%float)
               "or") sample_volume "mask.nii.gz"
  = Return (NDArray [2; 2] (BoolBuf [true; false; true; false])).
Proof.
  pose proof (thresholds_or_select_union "mask" None ∅ sample_volume "mask.nii.gz"
                0.8%float 0.1%float (conj eq_refl eq_refl)) as E.
  unfold ThresholdedMaskFile__init__. rewrite E. vm_compute. reflexivity.
Defined.

(** X10: whenever condition application returns, its metadata is exactly
    the four entries source, the two label lists or bounds ([None] kept as
    such) and the operator; the exclusive labels are recorded under the key
    [exclusive_lavels], as the source spells it. *)
Theorem condition_metadata (suffix : string) (scope : option string)
    (fnames : gmap string (gmap string string)) (combine : string)
    (inclusive_labels exclusive_labels : option (list Z))
    (lower_bound upper_bound : option float)
    (data out : ndarray) (mask_file : string) (meta : meta) :
  (LabelledMaskFile_apply_conditions
     (LabelledMaskFile_obj suffix scope fnames combine inclusive_labels exclusive_labels)
     data mask_file = Return (out, meta) →
   meta = [("source", PStr mask_file);
           ("inclusive_labels", of_optional (fun l => PList (PInt <$> l)) inclusive_labels);
           ("exclusive_lavels", of_optional (fun l => PList (PInt <$> l)) exclusive_labels);
           ("combined_with", PStr combine)])
  ∧ (ThresholdedMaskFile_apply_conditions
       (ThresholdedMaskFile_obj suffix scope fnames combine lower_bound upper_bound)
       data mask_file = Return (out, meta) →
     meta = [("source", PStr mask_file);
             ("upper_bound", of_optional PFloat upper_bound);
             ("lower_bound", of_optional PFloat lower_bound);
             ("combined_with", PStr combine)]).
Proof.
  split.
  - unfold LabelledMaskFile_apply_conditions. run_result.
    destruct (_MaskCombiner.__init__ (shape data) combine) as [c0|]; run_result; [|done].
    destruct inclusive_labels as [il|]; run_result;
      [destruct (_MaskCombiner.combine_masks c0 _) as [c1 [[]|]]; run_result; [|done]|];
      (destruct exclusive_labels as [el|]; run_result;
       [destruct (_MaskCombiner.combine_masks _ _) as [c2 [[]|]]; run_result; [|done]|]);
      by intros [= <- <-].
  - unfold ThresholdedMaskFile_apply_conditions. run_result.
    destruct (_MaskCombiner.__init__ (shape data) combine) as [c0|]; run_result; [|done].
    destruct upper_bound as [ub|]; run_result;
      [destruct (_MaskCombiner.combine_mask c0 _) as [c1 [[]|]]; run_result; [|done]|];
      (destruct lower_bound as [lb|]; run_result;
       [destruct (_MaskCombiner.combine_mask _ _) as [c2 [[]|]]; run_result; [|done]|]);
      by intros [= <- <-].
Qed.

(** ** More on the path cache *)

Section more_path_cache.
Context `{Collaborators}.

Lemma find_path_trace m layout subject session suffix scope :
  file_backed m = true →
  get_suffix m = Return suffix → get_scope m = Return scope →
  trace (find_path m layout subject session).2
  = [bids_get_called subject session suffix scope].
Proof.
  intros Hm Hsu Hsc. rewrite file_backed_find_path by done. unfold MaskFile_find_path.
  destruct (file_backed_attrs m Hm) as (fnames & su & sc & Hf & _ & _). rewrite Hf.
  cbv zeta.
  set (fnames1 := match fnames !! session with
                  | Some _ => fnames
                  | None => <[session:=∅]> fnames
                  end).
  destruct (set_fnames_attrs m fnames1 Hm) as (_ & _ & -> & ->). rewrite Hsu, Hsc.
  destruct (layout_get _ _ _ _ _ _); [done|]. by destruct (fnames1 !! session).
Qed.

(** X6: one [find_path] call on a file-backed mask queries the layout
    exactly once.  When the query has a match the call returns and the
    first match is what the cache then holds for the pair; when it has none
    the call raises [IndexError] and the pair's entry is as before; the
    entry of every other pair is untouched either way. *)
Theorem find_path_caches_first_match (m : Mask) (layout : BIDSLayout)
    (subject session suffix : string) (scope : option string) :
  file_backed m = true →
  get_suffix m = Return suffix → get_scope m = Return scope →
  let r := find_path m layout subject session in
  let found := layout_get layout subject session ".nii.gz" suffix "filename" scope in
  trace r.2 = [bids_get_called subject session suffix scope]
  ∧ (∀ fname rest, found = fname :: rest →
       outcome r.2 = Return () ∧ cached r.1 session subject = Some fname)
  ∧ (found = [] →
       outcome r.2 = Raise (IndexError "list index out of range")
       ∧ cached r.1 session subject = cached m session subject)
  ∧ (∀ session' subject', (session', subject') ≠ (session, subject) →
       cached r.1 session' subject' = cached m session' subject').
Proof.
  intros Hm Hsu Hsc r found. subst r found.
  destruct (find_path_effect m layout subject session suffix scope Hm Hsu Hsc)
    as (_ & _ & _ & Hout & Hc).
  split; [by apply find_path_trace|].
  split; [|split].
  - intros fname rest E. rewrite E in Hout, Hc. split; [done|].
    rewrite Hc. by rewrite decide_True.
  - intros E. rewrite E in Hout, Hc. by split.
  - intros s' j' Hne. rewrite Hc. destruct (layout_get _ _ _ _ _ _); [done|].
    rewrite decide_False; [done|]. intros [-> ->]. by apply Hne.
Qed.

Lemma get_mask_key_error m fnames afq row :
  file_backed m = true → get_fnames m = Return fnames →
  (fnames !! ses row = None →
   get_mask m afq row = Run [get_data_gtab_called row] (Raise (KeyError (ses row))))
  ∧ (∀ of_session, fnames !! ses row = Some of_session →
       of_session !! subject row = None →
       get_mask m afq row
       = Run [get_data_gtab_called row] (Raise (KeyError (subject row)))).
Proof.
  intros Hm Hf. rewrite file_backed_get_mask by done. unfold MaskFile_get_mask.
  destruct (_get_data_gtab afq row) as [[dwi_data gtab] dwi_img].
  rewrite file_backed_get_path_data_affine by done.
  unfold MaskFile_get_path_data_affine. rewrite Hf. run_M.
  split.
  - intros ->. by run_M.
  - intros d -> Hd. run_M. rewrite Hd. by run_M.
Qed.

(** X5: a [find_path] that finds no file raises, but has already created
    the session's dict: on a fresh mask [get_mask] reports the missing
    session ([KeyError] on the session), after the failed call it reports
    the missing subject. *)
Theorem failed_find_path_leaves_session (m : Mask) (layout : BIDSLayout)
    (suffix : string) (scope : option string) (afq : AFQ) (row : Row) :
  file_backed m = true → get_fnames m = Return ∅ →
  get_suffix m = Return suffix → get_scope m = Return scope →
  layout_get layout (subject row) (ses row) ".nii.gz" suffix "filename" scope = [] →
  let r := find_path m layout (subject row) (ses row) in
  outcome r.2 = Raise (IndexError "list index out of range")
  ∧ get_fnames r.1 = Return {[ses row := ∅]}
  ∧ get_mask m afq row = Run [get_data_gtab_called row] (Raise (KeyError (ses row)))
  ∧ get_mask r.1 afq row
    = Run [get_data_gtab_called row] (Raise (KeyError (subject row))).
Proof.
  intros Hm Hf Hsu Hsc Hget r. subst r.
  rewrite file_backed_find_path by done. unfold MaskFile_find_path.
  rewrite Hf, lookup_empty. cbv zeta.
  destruct (set_fnames_attrs m (<[ses row:=∅]> ∅) Hm) as (Hm1 & Hf1 & Hsu1 & Hsc1).
  rewrite Hsu1, Hsc1, Hsu, Hsc, Hget. cbn [fst snd outcome].
  rewrite insert_empty in *.
  split; [done|]. split; [done|]. split.
  - destruct (get_mask_key_error m ∅ afq row Hm Hf) as [Hmiss _].
    apply Hmiss, lookup_empty.
  - destruct (get_mask_key_error _ _ afq row Hm1 Hf1) as [_ Hmiss].
    apply (Hmiss ∅); [apply lookup_singleton_eq|apply lookup_empty].
Qed.
End more_path_cache.

Lemma find_path_caches_first_match_witness :
  cached (find_path (MaskFile__init__ "mask" None) sample_layout "A" "01").1 "01" "A"
  = Some "/data/sub-A/mask.nii.gz".
Proof.
  destruct (find_path_caches_first_match (MaskFile__init__ "mask" None) sample_layout
              "A" "01" "mask" None eq_refl eq_refl eq_refl) as (_ & Hhit & _).
  by destruct (Hhit "/data/sub-A/mask.nii.gz" [] eq_refl).
Defined.

Lemma failed_find_path_leaves_session_witness :
  @get_mask sample_collaborators
    (find_path (MaskFile__init__ "mask" None) sample_layout "B" "01").1
    sample_afq {| ses := "01"; subject := "B" |}
  = Run [get_data_gtab_called {| ses := "01"; subject := "B" |}] (Raise (KeyError "B")).
Proof.
  by destruct (failed_find_path_leaves_session (H := sample_collaborators)
                 (MaskFile__init__ "mask" None) sample_layout "mask" None sample_afq
                 {| ses := "01"; subject := "B" |} eq_refl eq_refl eq_refl eq_refl eq_refl)
    as (_ & _ & _ & E).
Defined.

(** ** Delegation to the children of a CombinedMask *)

Lemma combined_find_path_unfold mask_list combine layout subject session :
  find_path (CombinedMask_obj mask_list combine) layout subject session
  = let '(mask_list', r) :=
      CombinedMask_find_path_loop (fun mask => find_path mask layout subject session)
        mask_list in
    (CombinedMask_obj mask_list' combine, r).
Proof. done. Qed.

Lemma find_path_loop_all_return (call : Mask → Mask * M ()) (mask_list : list Mask) :
  Forall (fun m => outcome (call m).2 = Return ()) mask_list →
  CombinedMask_find_path_loop call mask_list
  = ((fun m => (call m).1) <$> mask_list,
     Run (mask_list ≫= fun m => trace (call m).2) (Return ())).
Proof.
  induction 1 as [|m ms Hm _ IH]; [done|].
  cbn [CombinedMask_find_path_loop]. fold (CombinedMask_find_path_loop call).
  destruct (call m) as [m' r] eqn:E. cbn [fst snd] in *. rewrite Hm, IH.
  cbn. by rewrite E.
Qed.



(** X13: [find_path] does nothing on a FullMask, a ScalarMask or a
    ThresholdedScalarMask, and nothing on a CombinedMask of such children:
    the object is unchanged and the layout is never queried. *)
Theorem find_path_ignores_masks_without_files (children : list Mask) (combine : string)
    (layout : BIDSLayout) (subject session : string) :
  Forall (fun m => type_of m ∈ [FullMask; ScalarMask; ThresholdedScalarMask]) children →
  Forall (fun m => find_path m layout subject session = (m, Run [] (Return ()))) children
  ∧ find_path (CombinedMask__init__ children combine) layout subject session
    = (CombinedMask__init__ children combine, Run [] (Return ())).
Proof.
  intros Hfree.
  assert (Forall (fun m => find_path m layout subject session = (m, Run [] (Return ())))
            children) as Hnop.
  { eapply Forall_impl; [exact Hfree|]. intros m Hm.
    destruct m; try done;
      repeat (apply elem_of_cons in Hm as [Hm|Hm]; [discriminate|]);
      by apply elem_of_nil in Hm. }
  split; [done|].
  unfold CombinedMask__init__. rewrite combined_find_path_unfold.
  rewrite find_path_loop_all_return
    by (eapply Forall_impl; [exact Hnop|]; by intros m ->).
  f_equal.
  - f_equal. clear Hfree. induction Hnop as [|m ms Hm _ IH]; [done|].
    cbn. by rewrite Hm, IH.
  - f_equal. clear Hfree. induction Hnop as [|m ms Hm _ IH]; [done|].
    cbn. by rewrite Hm, IH.
Qed.

Lemma find_path_ignores_masks_without_files_witness :
  find_path (CombinedMask__init__ [FullMask__init__; ScalarMask__init__ "dti_fa"] "and")
    sample_layout "A" "01"
  = (CombinedMask__init__ [FullMask__init__; ScalarMask__init__ "dti_fa"] "and",
     Run [] (Return ())).
Proof.
  apply find_path_ignores_masks_without_files.
  repeat constructor.
Defined.

(** ** Whole [get_mask] runs *)

Section get_mask_runs.
Context `{Collaborators}.

Lemma resample_mask_same_shape mask_data d mask_affine a n :
  last (shape d) = Some n → n ≠ 0 → removelast (shape d) = shape mask_data →
  _resample_mask mask_data (Some d) mask_affine (Some a)
  = Run [resample_mask_called] (Return mask_data).
Proof.
  intros Hn Hn0 Hs. unfold _resample_mask.
  destruct (index_last_0_shape d n Hn Hn0) as (d0 & -> & Hd0). run_M.
  rewrite bool_decide_eq_false_2; [done|]. intros Hne. apply Hne. by rewrite Hd0.
Qed.

Lemma resample_mask_dtype mask_data dwi_data mask_affine dwi_affine out :
  outcome (_resample_mask mask_data dwi_data mask_affine dwi_affine) = Return out →
  dtype_of out = dtype_of mask_data.
Proof.
  unfold _resample_mask.
  destruct dwi_data as [d|], dwi_affine as [a|]; run_M; try by intros [= <-].
  destruct (index_last_0 d) as [d0|]; run_M; [|done].
  case_bool_decide; run_M; [|by intros [= <-]].
  destruct (reg_resample _ _ _ _) as [s l]. run_M. intros [= <-].
  apply dtype_of_astype.
Qed.

Lemma resample_mask_trace mask_data dwi_data mask_affine dwi_affine :
  trace (_resample_mask mask_data dwi_data mask_affine dwi_affine)
    = [resample_mask_called]
  ∨ trace (_resample_mask mask_data dwi_data mask_affine dwi_affine)
    = [resample_mask_called; reg_resample_called].
Proof.
  unfold _resample_mask.
  destruct dwi_data as [d|], dwi_affine as [a|]; run_M; try by left.
  destruct (index_last_0 d) as [d0|]; run_M; [|by left].
  case_bool_decide; run_M; [|by left].
  destruct (reg_resample _ _ _ _) as [s l]. by right.
Qed.

(** The three stages of a [MaskFile.get_mask] call that returns. *)
Lemma MaskFile_get_mask_returns self afq row out meta :
  outcome (MaskFile_get_mask self afq row) = Return (out, meta) →
  ∃ loads fname data mask_affine mask_data,
    call_get_path_data_affine self afq row = Run loads (Return (fname, data, mask_affine))
    ∧ call_apply_conditions self data fname = Return (mask_data, meta)
    ∧ outcome (_resample_mask mask_data (Some (_get_data_gtab afq row).1.1) mask_affine
                 (Some (affine (_get_data_gtab afq row).2))) = Return out
    ∧ trace (MaskFile_get_mask self afq row)
      = get_data_gtab_called row :: loads
        ++ trace (_resample_mask mask_data (Some (_get_data_gtab afq row).1.1) mask_affine
                    (Some (affine (_get_data_gtab afq row).2))).
Proof.
  unfold MaskFile_get_mask.
  destruct (_get_data_gtab afq row) as [[dwi_data gtab] dwi_img]. run_M.
  destruct (call_get_path_data_affine self afq row)
    as [loads [[[fname data] mask_affine]|]]; run_M; [|done].
  destruct (call_apply_conditions self data fname) as [[mask_data meta']|] eqn:Ea;
    run_M; [|done].
  destruct (_resample_mask mask_data _ _ _) as [tr [out'|]] eqn:E; run_M; [|done].
  intros [= <- <-]. exists loads, fname, data, mask_affine, mask_data.
  rewrite E. run_M. by rewrite app_nil_r.
Qed.

(** What the two source resolutions return: one loaded float64 volume. *)
Lemma get_path_data_affine_returns self afq row loads fname data mask_affine :
  call_get_path_data_affine self afq row = Run loads (Return (fname, data, mask_affine)) →
  data = get_fdata (nib_load fname)
  ∧ (loads = [nib_load_called fname]
     ∨ ∃ scalar_name, loads = [scalar_called scalar_name row; nib_load_called fname]).
Proof.
  unfold call_get_path_data_affine.
  destruct (resolve _ _) as [[]|]; try done.
  - unfold MaskFile_get_path_data_affine.
    destruct (get_fnames self) as [f|]; run_M; [|done].
    destruct (f !! ses row) as [d|]; run_M; [|done].
    destruct (d !! subject row) as [fn|]; run_M; [|done].
    intros [= <- <- <- _]. split; [done|by left].
  - unfold ScalarMask_get_path_data_affine.
    destruct (get_scalar_name self) as [n|]; run_M; [|done].
    case_bool_decide; run_M; [done|].
    destruct (dict_get _ _) as [fn|]; run_M; [|done].
    intros [= <- <- <- _]. split; [done|right; by eexists].
Qed.

Lemma combine_mask_bool c other c' :
  _MaskCombiner.combine_mask c other = (c', Return ()) →
  dtype_of (_MaskCombiner.mask c') = np_bool.
Proof.
  unfold _MaskCombiner.combine_mask, np_logical_or, np_logical_and, np_logical,
    _MaskCombiner.combine_illdefined.
  repeat case_match; intros ?; by simplify_eq.
Qed.

Lemma combine_masks_bool c others c' :
  dtype_of (_MaskCombiner.mask c) = np_bool →
  _MaskCombiner.combine_masks c others = (c', Return ()) →
  dtype_of (_MaskCombiner.mask c') = np_bool.
Proof.
  revert c. induction others as [|o others IH]; intros c Hc;
    cbn [_MaskCombiner.combine_masks]; [by intros [= <-]|].
  destruct (_MaskCombiner.combine_mask c o) as [c1 [[]|]] eqn:E; [|done].
  apply IH. by eapply combine_mask_bool.
Qed.

Lemma init_bool S tag c :
  _MaskCombiner.__init__ S tag = Return c → dtype_of (_MaskCombiner.mask c) = np_bool.
Proof.
  unfold _MaskCombiner.__init__, _MaskCombiner.combine_illdefined.
  repeat case_match; intros ?; by simplify_eq.
Qed.

(** What condition application returns, by the class that supplies it: the
    data itself, or a bool mask; the metadata starts with the source. *)
Lemma apply_conditions_returns self data fname mask_data meta :
  call_apply_conditions self data fname = Return (mask_data, meta) →
  head meta = Some ("source", PStr fname)
  ∧ match resolve (type_of self) "apply_conditions" with
    | Some MaskFile => mask_data = data
    | _ => dtype_of mask_data = np_bool
    end.
Proof.
  unfold call_apply_conditions.
  destruct (resolve _ _) as [[]|]; try done.
  - by intros [= <- <-].
  - unfold LabelledMaskFile_apply_conditions.
    destruct (get_combine self) as [tag|]; run_result; [|done].
    destruct (_MaskCombiner.__init__ (shape data) tag) as [c0|] eqn:E0; run_result; [|done].
    apply init_bool in E0.
    destruct (get_ilabels self) as [il|]; run_result; [|done].
    destruct il as [il|]; run_result.
    + destruct (_MaskCombiner.combine_masks c0 _) as [c1 [[]|]] eqn:E1; run_result; [|done].
      apply combine_masks_bool in E1; [|done].
      destruct (get_elabels self) as [el|]; run_result; [|done].
      destruct el as [el|]; run_result.
      * destruct (_MaskCombiner.combine_masks c1 _) as [c2 [[]|]] eqn:E2; run_result;
          [|done].
        apply combine_masks_bool in E2; [|done]. by intros [= <- <-].
      * by intros [= <- <-].
    + destruct (get_elabels self) as [el|]; run_result; [|done].
      destruct el as [el|]; run_result.
      * destruct (_MaskCombiner.combine_masks c0 _) as [c2 [[]|]] eqn:E2; run_result;
          [|done].
        apply combine_masks_bool in E2; [|done]. by intros [= <- <-].
      * by intros [= <- <-].
  - unfold ThresholdedMaskFile_apply_conditions.
    destruct (get_combine self) as [tag|]; run_result; [|done].
    destruct (_MaskCombiner.__init__ (shape data) tag) as [c0|] eqn:E0; run_result; [|done].
    apply init_bool in E0.
    destruct (get_ub self) as [ub|]; run_result; [|done].
    destruct ub as [ub|]; run_result.
    + destruct (_MaskCombiner.combine_mask c0 _) as [c1 [[]|]] eqn:E1; run_result; [|done].
      apply combine_mask_bool in E1.
      destruct (get_lb self) as [lb|]; run_result; [|done].
      destruct lb as [lb|]; run_result.
      * destruct (_MaskCombiner.combine_mask c1 _) as [c2 [[]|]] eqn:E2; run_result;
          [|done].
        apply combine_mask_bool in E2. by intros [= <- <-].
      * by intros [= <- <-].
    + destruct (get_lb self) as [lb|]; run_result; [|done].
      destruct lb as [lb|]; run_result.
      * destruct (_MaskCombiner.combine_mask c0 _) as [c2 [[]|]] eqn:E2; run_result;
          [|done].
        apply combine_mask_bool in E2. by intros [= <- <-].
      * by intros [= <- <-].
Qed.

Lemma get_mask_is_MaskFile_get_mask self afq row :
  resolve (type_of self) "get_mask" = Some MaskFile →
  get_mask self afq row = MaskFile_get_mask self afq row.
Proof. by destruct self. Qed.

(** X3: the dtype of what [get_mask] returns depends on the class alone:
    bool for the masks that apply labels or thresholds, float64 for
    MaskFile, ScalarMask and FullMask, whether or not the mask was
    resampled. *)
Theorem get_mask_dtype_by_class (self : Mask) (afq : AFQ) (row : Row)
    (out : ndarray) (meta : meta) :
  outcome (get_mask self afq row) = Return (out, meta) →
  match type_of self with
  | LabelledMaskFile | ThresholdedMaskFile | ThresholdedScalarMask =>
      dtype_of out = np_bool
  | MaskFile | ScalarMask | FullMask => dtype_of out = np_float64
  | _ => True
  end.
Proof.
  intros Hret.
  assert (resolve (type_of self) "get_mask" = Some MaskFile →
          dtype_of out = match resolve (type_of self) "apply_conditions" with
                         | Some MaskFile => np_float64
                         | _ => np_bool
                         end) as Hfile.
  { intros Hres. rewrite get_mask_is_MaskFile_get_mask in Hret by done.
    apply MaskFile_get_mask_returns in Hret
      as (loads & fname & data & aff & mask_data & Hload & Happ & Hres' & _).
    apply get_path_data_affine_returns in Hload as [-> _].
    apply apply_conditions_returns in Happ as [_ Happ].
    apply resample_mask_dtype in Hres'. rewrite Hres'.
    destruct (resolve (type_of self) "apply_conditions") as [[]|]; try done.
    by rewrite Happ. }
  destruct self; try done; try (by apply Hfile).
  revert Hret. change (get_mask FullMask_obj afq row) with (FullMask_get_mask FullMask_obj afq row).
  unfold FullMask_get_mask. destruct (_get_data_gtab afq row) as [[dwi_data gtab] dwi_img].
  run_M. by intros [= <- _].
Qed.

(** X11: a [MaskFile.get_mask] run that returns has fetched the diffusion
    data first, then (for a scalar) computed the scalar's file, loaded
    exactly one file, and entered the resampling step once, last; the
    metadata's first entry is the source, and it names the loaded file. *)
Theorem get_mask_loads_then_resamples (self : Mask) (afq : AFQ) (row : Row)
    (out : ndarray) (meta : meta) :
  resolve (type_of self) "get_mask" = Some MaskFile →
  outcome (get_mask self afq row) = Return (out, meta) →
  ∃ scalar_calls fname tail,
    trace (get_mask self afq row)
    = get_data_gtab_called row :: scalar_calls
      ++ nib_load_called fname :: resample_mask_called :: tail
    ∧ (scalar_calls = [] ∨ ∃ scalar_name, scalar_calls = [scalar_called scalar_name row])
    ∧ (tail = [] ∨ tail = [reg_resample_called])
    ∧ head meta = Some ("source", PStr fname).
Proof.
  intros Hres Hret. rewrite get_mask_is_MaskFile_get_mask in * by done.
  apply MaskFile_get_mask_returns in Hret
    as (loads & fname & data & aff & mask_data & Hload & Happ & _ & ->).
  apply get_path_data_affine_returns in Hload as [_ Hloads].
  apply apply_conditions_returns in Happ as [Hsource _].
  destruct (resample_mask_trace mask_data (Some (_get_data_gtab afq row).1.1) aff
              (Some (affine (_get_data_gtab afq row).2))) as [-> | ->];
    destruct Hloads as [-> | [n ->]].
  - exists [], fname, []. repeat split; try done; by left.
  - exists [scalar_called n row], fname, []. repeat split; try done; [right; by eexists|by left].
  - exists [], fname, [reg_resample_called]. repeat split; try done; [by left|by right].
  - exists [scalar_called n row], fname, [reg_resample_called].
    repeat split; try done; [right; by eexists|by right].
Qed.

(** X12: round trip of a plain MaskFile.  After a [find_path] whose query
    has a match, [get_mask] for the same (subject, session) loads the first
    match and, when the reference volume without its last axis has the
    image's shape, returns the image's data untouched with metadata
    {source: that file}. *)
Theorem mask_file_round_trip (suffix : string) (scope : option string)
    (layout : BIDSLayout) (afq : AFQ) (row : Row) (fname : string) (rest : list string)
    (n : nat) :
  layout_get layout (subject row) (ses row) ".nii.gz" suffix "filename" scope
    = fname :: rest →
  last (shape (_get_data_gtab afq row).1.1) = Some n → n ≠ 0 →
  removelast (shape (_get_data_gtab afq row).1.1) = img_shape (nib_load fname) →
  let self := (find_path (MaskFile__init__ suffix scope) layout (subject row) (ses row)).1 in
  get_mask self afq row
  = Run [get_data_gtab_called row; nib_load_called fname; resample_mask_called]
      (Return (get_fdata (nib_load fname), [("source", PStr fname)])).
Proof.
  intros Hget Hn Hn0 Hshape self.
  assert (file_backed (MaskFile__init__ suffix scope) = true) as Hm by done.
  destruct (find_path_effect (MaskFile__init__ suffix scope) layout (subject row)
              (ses row) suffix scope Hm eq_refl eq_refl) as (Hm' & _ & _ & _ & Hc).
  specialize (Hc (ses row) (subject row)). rewrite Hget, decide_True in Hc by done.
  fold self in Hm', Hc.
  assert (call_apply_conditions self = MaskFile_apply_conditions self) as Happ.
  { unfold self, MaskFile__init__. rewrite file_backed_find_path by done.
    unfold MaskFile_find_path. cbn [get_fnames set_fnames get_suffix get_scope].
    rewrite Hget. by destruct (_ !! _). }
  rewrite file_backed_get_mask by done. unfold MaskFile_get_mask.
  destruct (_get_data_gtab afq row) as [[dwi_data gtab] dwi_img]. cbn [fst snd] in *.
  rewrite file_backed_get_path_data_affine by done.
  rewrite (get_path_data_affine_hit self afq row fname Hc). run_M.
  rewrite Happ. unfold MaskFile_apply_conditions. run_M.
  rewrite (resample_mask_same_shape _ dwi_data _ _ n) by done. by run_M.
Qed.

(** X4: the constructors of the condition masks accept any operator tag;
    on a file-backed mask whose path is cached, a tag outside "and"/"or"
    surfaces in [get_mask] as the [TypeError], after the file was loaded
    and before any resampling, whatever labels or bounds are set. *)
Theorem invalid_operator_raises_after_load (self : Mask) (tag : string) (afq : AFQ)
    (row : Row) (fname : string) :
  tag ≠ "and" → tag ≠ "or" →
  file_backed self = true → get_combine self = Return tag →
  cached self (ses row) (subject row) = Some fname →
  get_mask self afq row
  = Run [get_data_gtab_called row; nib_load_called fname]
      (Raise (TypeError ("combine should be either 'or' or 'and', you set combine to "
                           +:+ tag))).
Proof.
  intros Ha Ho Hm Htag Hc.
  assert (call_apply_conditions self (get_fdata (nib_load fname)) fname
          = Raise (TypeError ("combine should be either 'or' or 'and', you set combine to "
                                +:+ tag))) as Happ.
  { assert (_MaskCombiner.__init__ (shape (get_fdata (nib_load fname))) tag
            = Raise (TypeError ("combine should be either 'or' or 'and', you set combine to "
                                  +:+ tag))) as Hinit.
    { unfold _MaskCombiner.__init__.
      destruct (String.eqb_spec tag "or"); [done|].
      by destruct (String.eqb_spec tag "and"). }
    destruct self; try done.
    - change (call_apply_conditions ?m ?d ?f)
        with (LabelledMaskFile_apply_conditions m d f).
      unfold LabelledMaskFile_apply_conditions. rewrite Htag. run_result.
      by rewrite Hinit.
    - change (call_apply_conditions ?m ?d ?f)
        with (ThresholdedMaskFile_apply_conditions m d f).
      unfold ThresholdedMaskFile_apply_conditions. rewrite Htag. run_result.
      by rewrite Hinit. }
  rewrite file_backed_get_mask by done. unfold MaskFile_get_mask.
  destruct (_get_data_gtab afq row) as [[dwi_data gtab] dwi_img].
  rewrite file_backed_get_path_data_affine by done.
  rewrite (get_path_data_affine_hit self afq row fname Hc). run_M.
  rewrite Happ. by run_M.
Qed.
End get_mask_runs.

Lemma get_mask_dtype_by_class_witness :
  ∃ out meta,
    outcome (@get_mask sample_collaborators
               (ThresholdedScalarMask__init__ "dti_fa" (Some 0.2%float) None "and")
               sample_afq sample_row) = Return (out, meta)
    ∧ dtype_of out = np_bool.
Proof.
  eexists _, _. split; [vm_compute; reflexivity|].
  exact (get_mask_dtype_by_class (H := sample_collaborators)
           (ThresholdedScalarMask__init__ "dti_fa" (Some 0.2%float) None "and")
           sample_afq sample_row _ _ eq_refl).
Defined.

Lemma get_mask_loads_then_resamples_witness :
  ∃ scalar_calls fname tail,
    trace (@get_mask sample_collaborators
             (ThresholdedScalarMask__init__ "dti_fa" (Some 0.2%float) None "and")
             sample_afq sample_row)
    = get_data_gtab_called sample_row :: scalar_calls
      ++ nib_load_called fname :: resample_mask_called :: tail.
Proof.
  destruct (get_mask_loads_then_resamples (H := sample_collaborators)
              (ThresholdedScalarMask__init__ "dti_fa" (Some 0.2%float) None "and")
              sample_afq sample_row
              (NDArray [2; 2] (BoolBuf [false; true; true; true]))
              [("source", PStr "dti_fa.nii.gz"); ("upper_bound", PNone);
               ("lower_bound", PFloat 0.2%float); ("combined_with", PStr "and")])
    as (scalar_calls & fname & tail & E & _).
  - reflexivity.
  - vm_compute. reflexivity.
  - by exists scalar_calls, fname, tail.
Defined.

Lemma mask_file_round_trip_witness :
  @get_mask sample_collaborators
    (find_path (MaskFile__init__ "mask" None) sample_layout "A" "01").1
    sample_afq sample_row
  = Run [get_data_gtab_called sample_row; nib_load_called "/data/sub-A/mask.nii.gz";
         resample_mask_called]
      (Return (sample_volume, [("source", PStr "/data/sub-A/mask.nii.gz")])).
Proof.
  apply (mask_file_round_trip (H := sample_collaborators) "mask" None sample_layout
           sample_afq sample_row "/data/sub-A/mask.nii.gz" [] 3);
    [reflexivity|reflexivity|discriminate|reflexivity].
Defined.

Lemma invalid_operator_raises_after_load_witness :
  @get_mask sample_collaborators
    (find_path (LabelledMaskFile__init__ "aseg" None (Some [1]%Z) None "xor")
       sample_layout "A" "01").1
    sample_afq sample_row
  = Run [get_data_gtab_called sample_row; nib_load_called "/data/sub-A/aseg.nii.gz"]
      (Raise (TypeError "combine should be either 'or' or 'and', you set combine to xor")).
Proof.
  apply (invalid_operator_raises_after_load (H := sample_collaborators) _ "xor");
    [discriminate|discriminate|reflexivity|reflexivity|by vm_compute].
Defined.

Section labelled_runs.
Context `{Collaborators}.

Lemma labelled_apply_pair suffix scope fnames tag op unit il el data mask_file :
  well_formed data → operator_of tag = Some (op, unit) →
  LabelledMaskFile_apply_conditions
    (LabelledMaskFile_obj suffix scope fnames tag il el) data mask_file
  = Return (where_ data (fold_labels op unit (default [] il) (default [] el)),
            [("source", PStr mask_file);
             ("inclusive_labels", of_optional (fun l => PList (PInt <$> l)) il);
             ("exclusive_lavels", of_optional (fun l => PList (PInt <$> l)) el);
             ("combined_with", PStr tag)]).
Proof.
  intros Hd Hop. unfold LabelledMaskFile_apply_conditions. run_result.
  rewrite (init_where _ _ op unit) by done. run_result.
  unfold fold_labels, np_eq, np_ne.
  destruct il as [il|]; run_result;
    rewrite ?(combine_masks_where tag _ _ _ _ op unit) by done; run_result;
    (destruct el as [el|]; run_result;
     rewrite ?(combine_masks_where tag _ _ _ _ op unit) by done; run_result; done).
Qed.

(** X15: a LabelledMaskFile end to end.  With a cached path, a valid
    operator and a reference volume whose shape without the last axis is
    the image's, [get_mask] loads that file once, folds the label tests over
    its data and returns the result unresampled, with the full metadata.
    For all labels in the range of an int64. *)
Theorem labelled_mask_end_to_end (suffix : string) (scope : option string)
    (fnames : gmap string (gmap string string)) (combine : string)
    (op : bool → bool → bool) (unit : bool)
    (inclusive_labels exclusive_labels : option (list Z))
    (afq : AFQ) (row : Row) (fname : string) (n : nat) :
  let self := LabelledMaskFile_obj suffix scope fnames combine
                inclusive_labels exclusive_labels in
  let data := get_fdata (nib_load fname) in
  operator_of combine = Some (op, unit) →
  forallb is_int64 (default [] inclusive_labels) = true →
  forallb is_int64 (default [] exclusive_labels) = true →
  cached self (ses row) (subject row) = Some fname →
  well_formed data →
  last (shape (_get_data_gtab afq row).1.1) = Some n → n ≠ 0 →
  removelast (shape (_get_data_gtab afq row).1.1) = shape data →
  get_mask self afq row
  = Run [get_data_gtab_called row; nib_load_called fname; resample_mask_called]
      (Return (where_ data (fold_labels op unit (default [] inclusive_labels)
                              (default [] exclusive_labels)),
               [("source", PStr fname);
                ("inclusive_labels",
                 of_optional (fun l => PList (PInt <$> l)) inclusive_labels);
                ("exclusive_lavels",
                 of_optional (fun l => PList (PInt <$> l)) exclusive_labels);
                ("combined_with", PStr combine)])).
Proof.
  intros self data Hop _ _ Hc Hd Hn Hn0 Hshape. subst self data.
  rewrite file_backed_get_mask by done. unfold MaskFile_get_mask.
  destruct (_get_data_gtab afq row) as [[dwi_data gtab] dwi_img]. cbn [fst snd] in *.
  rewrite file_backed_get_path_data_affine by done.
  rewrite (get_path_data_affine_hit _ afq row fname Hc). run_M.
  change (call_apply_conditions ?m ?d ?f) with (LabelledMaskFile_apply_conditions m d f).
  rewrite (labelled_apply_pair _ _ _ _ op unit) by done. run_M.
  rewrite (resample_mask_same_shape _ dwi_data _ _ n) by done. by run_M.
Qed.
End labelled_runs.

Lemma labelled_mask_end_to_end_witness :
  fst <$> outcome (@get_mask sample_collaborators
                     (find_path (LabelledMaskFile__init__ "aseg" None None (Some [0]%Z) "or")
                        sample_layout "A" "01").1 sample_afq sample_row)
  = Return (NDArray [2; 2] (BoolBuf [true; true; true; true])).
Proof.
  pose proof (labelled_mask_end_to_end (H := sample_collaborators) "aseg" None
                (<["01" := {["A" := "/data/sub-A/aseg.nii.gz"]}]> ∅) "or" orb false None
                (Some [0]%Z) sample_afq sample_row "/data/sub-A/aseg.nii.gz" 3) as E.
  cbv zeta in E.
  assert ((find_path (LabelledMaskFile__init__ "aseg" None None (Some [0]%Z) "or")
             sample_layout "A" "01").1
          = LabelledMaskFile_obj "aseg" None
              (<["01" := {["A" := "/data/sub-A/aseg.nii.gz"]}]> ∅) "or" None
              (Some [0]%Z)) as -> by (by vm_compute).
  rewrite E; [vm_compute; reflexivity|reflexivity|reflexivity|reflexivity|by vm_compute
             |by split|reflexivity|discriminate|reflexivity].
Defined.

Lemma condition_metadata_witness :
  snd <$> LabelledMaskFile_apply_conditions
            (LabelledMaskFile__init__ "aseg" None (Some [1; 2]%Z) None "or")
            sample_labels "aseg.nii.gz"
  = Return [("source", PStr "aseg.nii.gz");
            ("inclusive_labels", PList [PInt 1; PInt 2]);
            ("exclusive_lavels", PNone);
            ("combined_with", PStr "or")].
Proof.
  destruct (LabelledMaskFile_apply_conditions
              (LabelledMaskFile__init__ "aseg" None (Some [1; 2]%Z) None "or")
              sample_labels "aseg.nii.gz") as [[out meta]|e] eqn:E; [|by vm_compute in E].
  destruct (condition_metadata "aseg" None ∅ "or" (Some [1; 2]%Z) None None None
              sample_labels out "aseg.nii.gz" meta) as [Hmeta _].
  by rewrite (Hmeta E).
Defined.
